(** * Optimization view: console adapters of the portfolio optimizer

    A shallow embedding of
    [openbb_terminal/portfolio/portfolio_optimization/optimizer_view.py].

    The module is glue code: it translates option names, calls the numerical
    collaborators ([optimizer_model], [pandas], [riskfolio], [matplotlib]) and
    prints what they return.  The embedding follows that shape.

    - Python [str] is [string]; the operations used by the module
      (negative indexing, slicing, [find], [replace], [upper], [lower],
      [capitalize]) are written out below on the ASCII range.
    - Python [float] is the exact rational [Q] it denotes: comparisons and
      the arithmetic written in the module are kept.  The one computation of
      the module whose outcome depends on binary rounding, the test
      [math.isclose] on a sum of weights, is carried out in IEEE 754 binary64
      ([Binary64] below) on the doubles that hold the values, so that it
      branches as the code does.
    - A [dict] literal is an association list in source order; [d[k]] raises
      [KeyError] on a missing key.
    - A function body runs in the monad [py]: the events sent to the console,
      in order, and either a returned value or the exception that escaped.
    - A local variable that a branch may leave unassigned is an [option];
      reading it while unassigned raises [UnboundLocalError].
    - Everything owned by a collaborator is a field of the class
      [Collaborators] or, for the efficient frontier, of [FrontierTools]. *)

From Stdlib Require Import String Ascii List ZArith QArith Qminmax Qabs Bool Lia.
From Stdlib Require Import DecimalString Lqa SpecFloat.
Import ListNotations.

Open Scope string_scope.

(** ** Python strings *)

Module Str.

(** [s[-1]] when [s] is not empty. *)
Fixpoint last (s : string) : option ascii :=
  match s with
  | EmptyString => None
  | String c s' =>
      match s' with
      | EmptyString => Some c
      | String _ _ => last s'
      end
  end.

(** [s[:-n]] for a positive [n]. *)
Definition drop_last (n : nat) (s : string) : string :=
  substring 0 (String.length s - n) s.

(** [s[i:j]]. *)
Definition slice (i j : nat) (s : string) : string :=
  substring i (j - i) s.

(** [s.find(c)] for a one-character needle; [None] is Python's [-1]. *)
Definition find (c : string) (s : string) : option nat :=
  String.index 0 c s.

(** [s.replace(c, empty)] for a one-character [c]. *)
Fixpoint remove (c : ascii) (s : string) : string :=
  match s with
  | EmptyString => EmptyString
  | String a s' =>
      if Ascii.eqb a c then remove c s' else String a (remove c s')
  end.

Definition upper_ascii (a : ascii) : ascii :=
  let n := nat_of_ascii a in
  if (97 <=? n)%nat && (n <=? 122)%nat then ascii_of_nat (n - 32) else a.

Definition lower_ascii (a : ascii) : ascii :=
  let n := nat_of_ascii a in
  if (65 <=? n)%nat && (n <=? 90)%nat then ascii_of_nat (n + 32) else a.

Fixpoint map (f : ascii -> ascii) (s : string) : string :=
  match s with
  | EmptyString => EmptyString
  | String a s' => String (f a) (map f s')
  end.

Definition upper : string -> string := map upper_ascii.
Definition lower : string -> string := map lower_ascii.

(** [s.capitalize()]: first character upper case, the rest lower case. *)
Definition capitalize (s : string) : string :=
  match s with
  | EmptyString => EmptyString
  | String a s' => String (upper_ascii a) (lower s')
  end.

(** [str(n)] for an integer. *)
Definition of_Z (n : Z) : string :=
  NilZero.string_of_int (Z.to_int n).

End Str.

(** ** Dictionaries *)

Definition dict (V : Type) : Type := list (string * V).

Fixpoint dict_get {V : Type} (d : dict V) (k : string) : option V :=
  match d with
  | [] => None
  | (k', v) :: d' => if String.eqb k' k then Some v else dict_get d' k
  end.

(** [k in d]. *)
Definition dict_mem {V : Type} (d : dict V) (k : string) : bool :=
  match dict_get d k with
  | Some _ => true
  | None => false
  end.

Definition keys {V : Type} (d : dict V) : list string := List.map fst d.
Definition values {V : Type} (d : dict V) : list V := List.map snd d.

(** [x in l] for a list of strings. *)
Definition str_in (x : string) (l : list string) : bool :=
  existsb (String.eqb x) l.

(** Pairwise distinctness of a list of strings, as a test. *)
Fixpoint distinct (l : list string) : bool :=
  match l with
  | [] => true
  | x :: l' => negb (str_in x l') && distinct l'
  end.

(** ** The translation tables *)

Definition objectives_choices : dict string :=
  [ ("minrisk", "MinRisk");
    ("sharpe", "Sharpe");
    ("utility", "Utility");
    ("maxret", "MaxRet");
    ("erc", "ERC") ].

Definition risk_names : dict string :=
  [ ("mv", "volatility");
    ("mad", "mean absolute deviation");
    ("gmd", "gini mean difference");
    ("msv", "semi standard deviation");
    ("var", "value at risk (VaR)");
    ("cvar", "conditional value at risk (CVaR)");
    ("tg", "tail gini");
    ("evar", "entropic value at risk (EVaR)");
    ("rg", "range");
    ("cvrg", "CVaR range");
    ("tgrg", "tail gini range");
    ("wr", "worst realization");
    ("flpm", "first lower partial moment");
    ("slpm", "second lower partial moment");
    ("mdd", "maximum drawdown uncompounded");
    ("add", "average drawdown uncompounded");
    ("dar", "drawdown at risk (DaR) uncompounded");
    ("cdar", "conditional drawdown at risk (CDaR) uncompounded");
    ("edar", "entropic drawdown at risk (EDaR) uncompounded");
    ("uci", "ulcer index uncompounded");
    ("mdd_rel", "maximum drawdown compounded");
    ("add_rel", "average drawdown compounded");
    ("dar_rel", "drawdown at risk (DaR) compounded");
    ("cdar_rel", "conditional drawdown at risk (CDaR) compounded");
    ("edar_rel", "entropic drawdown at risk (EDaR) compounded");
    ("uci_rel", "ulcer index compounded") ].

Definition risk_choices : dict string :=
  [ ("mv", "MV");
    ("mad", "MAD");
    ("gmd", "GMD");
    ("msv", "MSV");
    ("var", "VaR");
    ("cvar", "CVaR");
    ("tg", "TG");
    ("evar", "EVaR");
    ("rg", "RG");
    ("cvrg", "CVRG");
    ("tgrg", "TGRG");
    ("wr", "WR");
    ("flpm", "FLPM");
    ("slpm", "SLPM");
    ("mdd", "MDD");
    ("add", "ADD");
    ("dar", "DaR");
    ("cdar", "CDaR");
    ("edar", "EDaR");
    ("uci", "UCI");
    ("mdd_rel", "MDD_Rel");
    ("add_rel", "ADD_Rel");
    ("dar_rel", "DaR_Rel");
    ("cdar_rel", "CDaR_Rel");
    ("edar_rel", "EDaR_Rel");
    ("uci_rel", "UCI_Rel") ].

(** The values are [252.0], [52.0] and [12.0]. *)
Definition time_factor : dict Z :=
  [ ("D", 252%Z); ("W", 52%Z); ("M", 12%Z) ].

(** ** Console events, exceptions and the [py] monad *)

Definition weights_t : Type := dict Q.

(** A cell of a printed table: a formatted string or a bare number. *)
Inductive cell : Type :=
| CStr (s : string)
| CNum (x : Q).

Inductive event : Type :=
| ConsolePrint (args : list string)
    (** [console.print] with its positional arguments *)
| PrintLine (line : string)
    (** [print(line)] *)
| RichTable (rows : list (string * cell)) (headers : list string) (title : string)
    (** [print_rich_table(df, headers=..., show_index=True, title=...)] *)
| Consult (collaborator : string) (answer : option weights_t)
    (** the call of an optimizer returned; [answer] is the weight mapping it
        gives, [None] for the sentinel *).

Inductive exn : Type :=
| KeyError (key : string)
| IndexError
| UnboundLocalError (name : string)
| ZeroDivisionError
| ValueError
| OperandError (operation : string)
    (** raised inside a library by an operand it rejects; the class of the
        exception is the library's *).

Inductive outcome (A : Type) : Type :=
| Returned (a : A)
| Raised (e : exn).

Arguments Returned {A} a.
Arguments Raised {A} e.

Definition py (A : Type) : Type := (list event * outcome A)%type.

Definition ret {A : Type} (a : A) : py A := ([], Returned a).

Definition raise {A : Type} (e : exn) : py A := ([], Raised e).

Definition bind {A B : Type} (m : py A) (f : A -> py B) : py B :=
  match m with
  | (t, Returned a) => let (t', o) := f a in ((t ++ t')%list, o)
  | (t, Raised e) => (t, Raised e)
  end.

Definition emit (e : event) : py unit := ([e], Returned tt).

Declare Scope py_scope.
Delimit Scope py_scope with py.
Notation "x <- m ;; k" := (bind m (fun x => k))
  (at level 61, m at next level, right associativity) : py_scope.
Notation "m ;; k" := (bind m (fun _ => k))
  (at level 61, right associativity) : py_scope.
Notation "' p <- m ;; k" := (bind m (fun x => match x with p => k end))
  (at level 61, p pattern, m at next level, right associativity) : py_scope.
Open Scope py_scope.

Definition trace {A : Type} (m : py A) : list event := fst m.
Definition result {A : Type} (m : py A) : outcome A := snd m.

(** A computation that sends nothing to the console. *)
Definition quiet {A : Type} (m : py A) : Prop := trace m = [].

(** [d[k]]. *)
Definition getitem {V : Type} (d : dict V) (k : string) : py V :=
  match dict_get d k with
  | Some v => ret v
  | None => raise (KeyError k)
  end.

(** Reading the local variable [name]. *)
Definition load_local {A : Type} (name : string) (v : option A) : py A :=
  match v with
  | Some a => ret a
  | None => raise (UnboundLocalError name)
  end.

(** [s[-1]]. *)
Definition last_char (s : string) : py ascii :=
  match Str.last s with
  | Some c => ret c
  | None => raise IndexError
  end.

(** [a / b] on Python floats. *)
Definition fdiv (a b : Q) : py Q :=
  if Qeq_bool b 0 then raise ZeroDivisionError else ret (a / b)%Q.

(** The events that put something on the console. *)
Definition is_output (e : event) : bool :=
  match e with
  | Consult _ _ => false
  | _ => true
  end.

Definition consulted {A : Type} (m : py A) : bool :=
  existsb (fun e => negb (is_output e)) (trace m).

(** A computation that calls no collaborator of [optimizer_model]. *)
Definition no_consult {A : Type} (m : py A) : Prop := consulted m = false.

(** ** Dates

    A [datetime.date] is kept as its proleptic Gregorian ordinal
    ([date.toordinal()]): day 1 is 0001-01-01, a Monday. *)

Module Date.

Definition t : Type := Z.

(** [d.weekday()]: Monday is 0, Sunday is 6. *)
Definition weekday (d : t) : Z := ((d + 6) mod 7)%Z.

(** The weekday constants of [dateutil.relativedelta]; [FR] is 4. *)
Definition FR : Z := 4%Z.

(** [d + relativedelta(weekday=wd(nth))], as [dateutil] defines it: move to
    the [nth] occurrence of the weekday [wd], forwards for a positive [nth]
    and backwards for a negative one, the day [d] itself counting as the
    first occurrence. *)
Definition add_relativedelta_weekday (d : t) (wd nth : Z) : t :=
  let jumpdays := ((Z.abs nth - 1) * 7)%Z in
  if (0 <? nth)%Z
  then (d + (jumpdays + (7 - weekday d + wd) mod 7))%Z
  else (d - (jumpdays + (weekday d - wd) mod 7))%Z.

End Date.

(** ** Numbers *)

Definition Qlt_bool (x y : Q) : bool := negb (Qle_bool y x).

(** [np.sum(xs)], in exact arithmetic: a left fold from [0]. *)
Definition Qsum (xs : list Q) : Q := fold_left Qplus xs 0%Q.

(** ** Binary floating point

    A Python [float] is an IEEE 754 double: [spec_float] with a precision of
    53 bits, every operation rounded to the nearest double, ties to even. *)

Module Binary64.

Definition double : Type := spec_float.

Definition prec : Z := 53%Z.
Definition emax : Z := 1024%Z.

Definition zero : double := S754_zero false.

(** An integer as the operand of a division: the mantissa is kept whole. *)
Definition of_int (n : Z) : double :=
  match n with
  | Z0 => zero
  | Zpos p => S754_finite false p 0
  | Zneg p => S754_finite true p 0
  end.

(** The double nearest to a rational: the value that a decimal literal
    denotes and that a weight is held with. *)
Definition of_Q (q : Q) : double :=
  SFdiv prec emax (of_int (Qnum q)) (of_int (Z.pos (Qden q))).

Definition add : double -> double -> double := SFadd prec emax.
Definition sub : double -> double -> double := SFsub prec emax.
Definition mul : double -> double -> double := SFmul prec emax.

Definition is_infinity (x : double) : bool :=
  match x with
  | S754_infinity _ => true
  | _ => false
  end.

(** The sum of a sequence of floats: from 0, one rounded addition per
    element, in order. *)
Definition sum (xs : list double) : double := fold_left add xs zero.

(** [math.isclose(a, b, rel_tol=rel_tol)] with the default [abs_tol] of 0,
    as CPython computes it: equal operands are close, an infinite operand is
    close to nothing else, and otherwise [diff = fabs(b - a)] is compared
    with [fabs(rel_tol * b)], [fabs(rel_tol * a)] and [abs_tol]. *)
Definition math_isclose (a b rel_tol : double) : bool :=
  if SFeqb a b then true
  else if is_infinity a || is_infinity b then false
  else
    let diff := SFabs (sub b a) in
    SFleb diff (SFabs (mul rel_tol b))
    || SFleb diff (SFabs (mul rel_tol a))
    || SFleb diff zero.

End Binary64.

(** The sum of the floats that hold [xs], as [sum(xs)] on a list and
    [df.sum()] on a column compute it. *)
Definition float_sum (xs : list Q) : Binary64.double :=
  Binary64.sum (List.map Binary64.of_Q xs).

(** [math.isclose(a, b, rel_tol=rel_tol)] for a float [a] and literals [b]
    and [rel_tol]. *)
Definition isclose (a : Binary64.double) (b rel_tol : Q) : bool :=
  Binary64.math_isclose a (Binary64.of_Q b) (Binary64.of_Q rel_tol).

(** The newline character. *)
Definition nl : string := String (ascii_of_nat 10) EmptyString.

(** ** Requests

    The keyword arguments shared by every display function: what the
    return-series provider needs. *)
Record window : Type := mkWindow {
  stocks : list string;
  period : string;
  start : string;
  end_ : string;
  log_returns : bool;
  freq : string;
  maxnan : Q;
  threshold : Q;
  method : string
}.

(** The other keyword arguments of [display_mean_risk]. *)
Record mean_risk_opts : Type := mkMeanRisk {
  mr_risk_measure : string;
  mr_objective : string;
  mr_risk_free_rate : Q;
  mr_risk_aversion : Q;
  mr_alpha : Q;
  mr_target_return : Q;
  mr_target_risk : Q;
  mr_mean : string;
  mr_covariance : string;
  mr_d_ewma : Q;
  mr_value : Q;
  mr_value_short : Q
}.

(** The other keyword arguments of [display_max_div] and
    [display_max_decorr]. *)
Record diversification_opts : Type := mkDiversification {
  dv_covariance : string;
  dv_d_ewma : Q;
  dv_value : Q;
  dv_value_short : Q
}.

(** The other keyword arguments of [display_risk_parity]. *)
Record risk_parity_opts : Type := mkRiskParity {
  rp_risk_measure : string;
  rp_risk_cont : option (list string);
  rp_risk_free_rate : Q;
  rp_alpha : Q;
  rp_target_return : Q;
  rp_mean : string;
  rp_covariance : string;
  rp_d_ewma : Q;
  rp_value : Q
}.

(** The other keyword arguments of [display_rel_risk_parity]. *)
Record rel_risk_parity_opts : Type := mkRelRiskParity {
  rr_version : string;
  rr_risk_cont : option (list string);
  rr_penal_factor : Q;
  rr_target_return : Q;
  rr_mean : string;
  rr_covariance : string;
  rr_d_ewma : Q;
  rr_value : Q
}.

(** The other keyword arguments of [display_hcp]. *)
Record hcp_opts : Type := mkHcp {
  hc_model : string;
  hc_codependence : string;
  hc_covariance : string;
  hc_objective : string;
  hc_risk_measure : string;
  hc_risk_free_rate : Q;
  hc_risk_aversion : Q;
  hc_alpha : Q;
  hc_a_sim : Q;
  hc_beta : option Q;
  hc_b_sim : option Q;
  hc_linkage : string;
  hc_k : Z;
  hc_max_k : Z;
  hc_bins_info : string;
  hc_alpha_tail : Q;
  hc_leaf_order : bool;
  hc_d_ewma : Q;
  hc_value : Q
}.

Definition with_codes (o : mean_risk_opts) (risk_measure objective : string)
  : mean_risk_opts :=
  mkMeanRisk risk_measure objective (mr_risk_free_rate o) (mr_risk_aversion o)
    (mr_alpha o) (mr_target_return o) (mr_target_risk o) (mr_mean o)
    (mr_covariance o) (mr_d_ewma o) (mr_value o) (mr_value_short o).

Definition with_objective (o : mean_risk_opts) (objective : string)
  (risk_aversion : Q) : mean_risk_opts :=
  mkMeanRisk (mr_risk_measure o) objective (mr_risk_free_rate o) risk_aversion
    (mr_alpha o) (mr_target_return o) (mr_target_risk o) (mr_mean o)
    (mr_covariance o) (mr_d_ewma o) (mr_value o) (mr_value_short o).

Definition with_alpha (o : mean_risk_opts) (alpha : Q) : mean_risk_opts :=
  mkMeanRisk (mr_risk_measure o) (mr_objective o) (mr_risk_free_rate o)
    (mr_risk_aversion o) alpha (mr_target_return o) (mr_target_risk o)
    (mr_mean o) (mr_covariance o) (mr_d_ewma o) (mr_value o) (mr_value_short o).

Definition rp_with_code (o : risk_parity_opts) (risk_measure : string)
  : risk_parity_opts :=
  mkRiskParity risk_measure (rp_risk_cont o) (rp_risk_free_rate o) (rp_alpha o)
    (rp_target_return o) (rp_mean o) (rp_covariance o) (rp_d_ewma o)
    (rp_value o).

Definition rr_with_version (o : rel_risk_parity_opts) (version : string)
  : rel_risk_parity_opts :=
  mkRelRiskParity version (rr_risk_cont o) (rr_penal_factor o)
    (rr_target_return o) (rr_mean o) (rr_covariance o) (rr_d_ewma o)
    (rr_value o).

Definition hc_with_codes (o : hcp_opts) (objective risk_measure : string)
  : hcp_opts :=
  mkHcp (hc_model o) (hc_codependence o) (hc_covariance o) objective
    risk_measure (hc_risk_free_rate o) (hc_risk_aversion o) (hc_alpha o)
    (hc_a_sim o) (hc_beta o) (hc_b_sim o) (hc_linkage o) (hc_k o) (hc_max_k o)
    (hc_bins_info o) (hc_alpha_tail o) (hc_leaf_order o) (hc_d_ewma o)
    (hc_value o).

(** [display_hrp] and [display_herc] fix the model and leave [objective] and
    [risk_aversion] to the defaults of [display_hcp]. *)
Definition hc_for_model (o : hcp_opts) (model : string) : hcp_opts :=
  mkHcp model (hc_codependence o) (hc_covariance o) "minrisk"
    (hc_risk_measure o) (hc_risk_free_rate o) 1 (hc_alpha o)
    (hc_a_sim o) (hc_beta o) (hc_b_sim o) (hc_linkage o) (hc_k o) (hc_max_k o)
    (hc_bins_info o) (hc_alpha_tail o) (hc_leaf_order o) (hc_d_ewma o)
    (hc_value o).

(** [display_nco] fixes the model and leaves [a_sim], [beta] and [b_sim] to
    the defaults of [display_hcp]. *)
Definition hc_for_nco (o : hcp_opts) : hcp_opts :=
  mkHcp "NCO" (hc_codependence o) (hc_covariance o) (hc_objective o)
    (hc_risk_measure o) (hc_risk_free_rate o) (hc_risk_aversion o) (hc_alpha o)
    100 None None (hc_linkage o) (hc_k o) (hc_max_k o)
    (hc_bins_info o) (hc_alpha_tail o) (hc_leaf_order o) (hc_d_ewma o)
    (hc_value o).

(** The dictionary local to [d_period]. *)
Definition extra_choices : dict string :=
  [ ("ytd", "[Year-to-Date]"); ("max", "[All-time]") ].

(** The list local to [portfolio_performance]. *)
Definition drawdowns : list string :=
  [ "MDD"; "ADD"; "DaR"; "CDaR"; "EDaR"; "UCI";
    "MDD_Rel"; "ADD_Rel"; "DaR_Rel"; "CDaR_Rel"; "EDaR_Rel"; "UCI_Rel" ].

(** The formatter that [display_weights] applies to the text of each value. *)
Definition clip (s : string) : string :=
  match Str.find "." s with
  | Some 1%nat => " " ++ Str.slice 0 4 s
  | _ => "" ++ Str.slice 0 5 s
  end.

(** The notice printed when an optimizer has no solution. *)
Definition no_solution : event :=
  ConsolePrint [nl; "There is no solution with this parameters"].

(** ** The collaborators

    What the module does not compute itself: the clock, the conversions of a
    float to text, the return table of [pandas], the risk scorer of
    [riskfolio] and the builders and optimizers of [optimizer_model]. *)

Class Collaborators : Type := {
  (** [date.today()] *)
  today : Date.t;
  (** [d.strftime] with the format year-month-day *)
  strftime : Date.t -> string;
  (** the text of a float, as [astype(str)] gives it *)
  str_float : Q -> string;
  (** a float formatted with [n] decimals, as in a format string *)
  fmt : nat -> Q -> string;
  (** [x ** 0.5] *)
  pow_half : Q -> Q;
  (** a [pandas] table *)
  frame : Type;
  (** [stock_returns @ pd.Series(weights).to_frame()] *)
  matmul : frame -> weights_t -> frame;
  (** [returns.mean().item()] *)
  mean_item : frame -> Q;
  (** [returns.std().item()] *)
  std_item : frame -> Q;
  (** [stock_returns.cov()] *)
  cov : frame -> frame;
  (** [rp.Sharpe_Risk(w, cov, returns, rm, rf, alpha, a_sim, beta, b_sim)] *)
  Sharpe_Risk :
    weights_t -> frame -> frame -> string -> Q -> Q -> Q ->
    option Q -> option Q -> Q;
  (** the return-series provider *)
  returns_provider : window -> frame;
  (** the builders and optimizers: each returns the pair of a weight mapping
      and the return table; an optimizer answers [None] for the mapping when
      it has no solution *)
  get_property_weights : window -> string -> Q -> weights_t * frame;
  get_mean_risk_portfolio :
    window -> mean_risk_opts -> option weights_t * frame;
  get_max_diversification_portfolio :
    window -> diversification_opts -> option weights_t * frame;
  get_max_decorrelation_portfolio :
    window -> diversification_opts -> option weights_t * frame;
  get_risk_parity_portfolio :
    window -> risk_parity_opts -> option weights_t * frame;
  get_rel_risk_parity_portfolio :
    window -> rel_risk_parity_opts -> option weights_t * frame;
  get_hcp_portfolio : window -> hcp_opts -> option weights_t * frame
}.

(** ** The view *)

Section View.

Context {C : Collaborators}.

(** Modelled from the spec: [optimizer_model.get_equal_weights] is not part of
    the sources at hand.  The equal-weight builder returns, with the return
    table of the window, a mapping from each ticker to the same fraction of
    the allocated value: [value] times 1 over the number of stocks. *)
Definition get_equal_weights (w : window) (value : Q) : weights_t * frame :=
  (List.map (fun s => (s, value / inject_Z (Z.of_nat (List.length (stocks w)))))
     (stocks w),
   returns_provider w).

(** The call of an optimizer: the answer is recorded and handed back. *)
Definition consult (name : string) (r : option weights_t * frame)
  : py (option weights_t * frame) :=
  emit (Consult name (fst r)) ;; ret r.

(** The call of a weight builder, which always answers with a mapping. *)
Definition consult_builder (name : string) (r : weights_t * frame)
  : py (weights_t * frame) :=
  emit (Consult name (Some (fst r))) ;; ret r.

(** *** [d_period] *)

Definition d_period (period start end_ : string) : py string :=
  if start =? "" then
    p <- (if dict_mem extra_choices period then
            v <- getitem extra_choices period ;;
            ret (Some v)
          else
            c <- last_char period ;;
            if Ascii.eqb c "d" then
              ret (Some ("[" ++ Str.drop_last 1 period ++ " Days]"))
            else if Ascii.eqb c "w" then
              ret (Some ("[" ++ Str.drop_last 1 period ++ " Weeks]"))
            else if Ascii.eqb c "o" then
              ret (Some ("[" ++ Str.drop_last 2 period ++ " Months]"))
            else if Ascii.eqb c "y" then
              ret (Some ("[" ++ Str.drop_last 1 period ++ " Years]"))
            else ret None) ;;
    p <- load_local "p" p ;;
    if Str.slice 1 3 p =? "1 " then ret (Str.remove "s" p) else ret p
  else
    let end_ :=
      if end_ =? "" then
        let d := today in
        let d :=
          if (5 <=? Date.weekday d)%Z
          then Date.add_relativedelta_weekday d Date.FR (-1)
          else d in
        strftime d
      else end_ in
    ret ("[From " ++ start ++ " to " ++ end_ ++ "]").

(** *** [portfolio_performance]

    [time_factor[freq]] is read once here; every later read in the body is
    of the same entry.  The keyword defaults ([alpha=0.05], [a_sim=100],
    [beta=None], [b_sim=None]) are supplied by the callers below. *)
Definition portfolio_performance (weights : weights_t) (stock_returns : frame)
  (freq risk_measure : string) (risk_free_rate alpha a_sim : Q)
  (beta b_sim : option Q) : py unit :=
  let freq := Str.upper freq in
  let returns := matmul stock_returns weights in
  tf <- getitem time_factor freq ;;
  let mu := (mean_item returns * inject_Z tf)%Q in
  let sigma := (std_item returns * pow_half (inject_Z tf))%Q in
  sharpe <- fdiv (mu - risk_free_rate) sigma ;;
  let factor_1 := Str.of_Z tf ++ ") " in
  let factor_2 := "√" ++ factor_1 in
  emit (PrintLine ("Annual (by " ++ factor_1 ++ "expected return: "
                   ++ fmt 2 (100 * mu) ++ "%")) ;;
  emit (PrintLine ("Annual (by " ++ factor_2 ++ "volatility: "
                   ++ fmt 2 (100 * sigma) ++ "%")) ;;
  emit (PrintLine ("Sharpe ratio: " ++ fmt 4 sharpe)) ;;
  if negb (risk_measure =? "MV") then
    let risk :=
      Sharpe_Risk weights (cov stock_returns) stock_returns risk_measure
        risk_free_rate alpha a_sim beta b_sim in
    sharpe_2 <-
      (if str_in risk_measure drawdowns then
         sharpe_2 <- fdiv (mu - risk_free_rate) risk ;;
         name <- getitem risk_names (Str.lower risk_measure) ;;
         emit (PrintLine (Str.capitalize name ++ " : "
                          ++ fmt 2 (100 * risk) ++ "%")) ;;
         ret sharpe_2
       else
         let risk := (risk * pow_half (inject_Z tf))%Q in
         sharpe_2 <- fdiv (mu - risk_free_rate) risk ;;
         name <- getitem risk_names (Str.lower risk_measure) ;;
         emit (PrintLine ("Annual (by " ++ factor_2 ++ name ++ " : "
                          ++ fmt 2 (100 * risk) ++ "%")) ;;
         ret sharpe_2) ;;
    name <- getitem risk_names (Str.lower risk_measure) ;;
    emit (PrintLine ("Return / " ++ name ++ " ratio: " ++ fmt 4 sharpe_2))
  else ret tt.

(** *** [display_weights] *)

Definition display_weights (weights : weights_t) (market_neutral : bool)
  : py unit :=
  match weights with
  | [] => ret tt
  | _ :: _ =>
      if negb market_neutral then
        let rows :=
          if isclose (float_sum (values weights)) 1 0.1 then
            List.map
              (fun kv => (fst kv, CStr (clip (str_float (snd kv * 100)) ++ " %")))
              weights
          else
            List.map
              (fun kv => (fst kv, CStr (clip (str_float (snd kv)) ++ " $")))
              weights in
        emit (RichTable rows ["Value"] "Weights")
      else
        let tot_value :=
          (Qsum (List.map Qabs (values weights))
           / inject_Z (Z.of_nat (List.length weights)))%Q in
        let header :=
          if Qlt_bool 1.01 tot_value then "Value ($)" else "Value (%)" in
        emit (RichTable (List.map (fun kv => (fst kv, CNum (snd kv))) weights)
                [header] "Weights")
  end.

(** *** The weight builders *)

Definition display_equal_weight (w : window) (risk_measure : string)
  (risk_free_rate alpha value : Q) : py (option weights_t) :=
  p <- d_period (period w) (start w) (end_ w) ;;
  let s_title := p ++ " Equally Weighted Portfolio" ++ nl in
  r <- consult_builder "get_equal_weights" (get_equal_weights w value) ;;
  let weights := fst r in
  let stock_returns := snd r in
  emit (ConsolePrint [nl; s_title]) ;;
  display_weights weights false ;;
  rm <- getitem risk_choices risk_measure ;;
  portfolio_performance weights stock_returns (freq w) rm risk_free_rate
    0.05 100 None None ;;
  emit (ConsolePrint [""]) ;;
  ret (Some weights).


(** *** The mean-risk optimizer and its four front ends *)

Definition display_mean_risk (w : window) (o : mean_risk_opts)
  : py (option weights_t) :=
  let risk_measure := mr_risk_measure o in
  let objective := mr_objective o in
  p <- d_period (period w) (start w) (end_ w) ;;
  let s_title :=
    if objective =? "sharpe" then
      Some (p ++ " Maximal return/risk ratio portfolio using" ++ nl)
    else if objective =? "minrisk" then
      Some (p ++ " Minimum risk portfolio using" ++ nl)
    else if objective =? "maxret" then
      Some (p ++ " Maximal return portfolio using" ++ nl)
    else if objective =? "utility" then
      Some (p ++ " Maximal risk averse utility function portfolio using" ++ nl)
    else None in
  s_title <- load_local "s_title" s_title ;;
  name <- getitem risk_names risk_measure ;;
  let s_title := s_title ++ (name ++ " as risk measure" ++ nl) in
  rm <- getitem risk_choices risk_measure ;;
  obj <- getitem objectives_choices objective ;;
  r <- consult "get_mean_risk_portfolio"
         (get_mean_risk_portfolio w (with_codes o rm obj)) ;;
  match fst r with
  | None => emit no_solution ;; ret None
  | Some weights =>
      let stock_returns := snd r in
      emit (ConsolePrint [nl; s_title]) ;;
      display_weights weights false ;;
      rm <- getitem risk_choices risk_measure ;;
      portfolio_performance weights stock_returns (freq w) rm
        (mr_risk_free_rate o) 0.05 100 None None ;;
      emit (ConsolePrint [""]) ;;
      ret (Some weights)
  end.

(** [display_max_sharpe], [display_min_risk] and [display_max_ret] have no
    [objective] and no [risk_aversion] parameter: the call is made with the
    fixed objective and the default [risk_aversion] of 1. *)
Definition display_max_sharpe (w : window) (o : mean_risk_opts)
  : py (option weights_t) :=
  display_mean_risk w (with_objective o "sharpe" 1).

Definition display_min_risk (w : window) (o : mean_risk_opts)
  : py (option weights_t) :=
  display_mean_risk w (with_objective o "minrisk" 1).

Definition display_max_util (w : window) (o : mean_risk_opts)
  : py (option weights_t) :=
  display_mean_risk w (with_objective o "utility" (mr_risk_aversion o)).

Definition display_max_ret (w : window) (o : mean_risk_opts)
  : py (option weights_t) :=
  display_mean_risk w (with_objective o "maxret" 1).

(** *** Maximal diversification and maximal decorrelation *)

Definition display_max_div (w : window) (o : diversification_opts)
  : py (option weights_t) :=
  p <- d_period (period w) (start w) (end_ w) ;;
  let s_title := p ++ " Display a maximal diversification portfolio" ++ nl in
  r <- consult "get_max_diversification_portfolio"
         (get_max_diversification_portfolio w o) ;;
  match fst r with
  | None => emit no_solution ;; ret None
  | Some weights =>
      let stock_returns := snd r in
      emit (ConsolePrint [nl; s_title]) ;;
      display_weights weights false ;;
      portfolio_performance weights stock_returns (freq w) "MV" 0
        0.05 100 None None ;;
      emit (ConsolePrint [""]) ;;
      ret (Some weights)
  end.

Definition display_max_decorr (w : window) (o : diversification_opts)
  : py (option weights_t) :=
  p <- d_period (period w) (start w) (end_ w) ;;
  let s_title := p ++ " Display a maximal decorrelation portfolio" ++ nl in
  r <- consult "get_max_decorrelation_portfolio"
         (get_max_decorrelation_portfolio w o) ;;
  match fst r with
  | None => emit no_solution ;; ret None
  | Some weights =>
      let stock_returns := snd r in
      emit (ConsolePrint [nl; s_title]) ;;
      display_weights weights false ;;
      portfolio_performance weights stock_returns (freq w) "MV" 0
        0.05 100 None None ;;
      emit (ConsolePrint [""]) ;;
      ret (Some weights)
  end.

(** *** Risk parity and relaxed risk parity *)

Definition display_risk_parity (w : window) (o : risk_parity_opts)
  : py (option weights_t) :=
  let risk_measure := rp_risk_measure o in
  p <- d_period (period w) (start w) (end_ w) ;;
  let s_title :=
    p ++ " Risk parity portfolio based on risk budgeting approach" ++ nl in
  name <- getitem risk_names risk_measure ;;
  let s_title := s_title ++ ("using " ++ name ++ " as risk measure" ++ nl) in
  rm <- getitem risk_choices risk_measure ;;
  r <- consult "get_risk_parity_portfolio"
         (get_risk_parity_portfolio w (rp_with_code o rm)) ;;
  match fst r with
  | None => emit no_solution ;; ret None
  | Some weights =>
      let stock_returns := snd r in
      emit (ConsolePrint [nl; s_title]) ;;
      display_weights weights false ;;
      rm <- getitem risk_choices risk_measure ;;
      portfolio_performance weights stock_returns (freq w) rm
        (rp_risk_free_rate o) 0.05 100 None None ;;
      emit (ConsolePrint [""]) ;;
      ret (Some weights)
  end.

Definition display_rel_risk_parity (w : window) (o : rel_risk_parity_opts)
  : py (option weights_t) :=
  p <- d_period (period w) (start w) (end_ w) ;;
  let s_title :=
    p ++ " Relaxed risk parity portfolio based on least squares approach" ++ nl in
  r <- consult "get_rel_risk_parity_portfolio"
         (get_rel_risk_parity_portfolio w
            (rr_with_version o (Str.upper (rr_version o)))) ;;
  match fst r with
  | None => emit no_solution ;; ret None
  | Some weights =>
      let stock_returns := snd r in
      emit (ConsolePrint [nl; s_title]) ;;
      display_weights weights false ;;
      rm <- getitem risk_choices "mv" ;;
      portfolio_performance weights stock_returns (freq w) rm 0
        0.05 100 None None ;;
      emit (ConsolePrint [""]) ;;
      ret (Some weights)
  end.

(** *** Hierarchical clustering portfolios *)

Definition display_hcp (w : window) (o : hcp_opts) : py (option weights_t) :=
  let model := hc_model o in
  let codependence := hc_codependence o in
  let linkage := hc_linkage o in
  let risk_measure := hc_risk_measure o in
  p <- d_period (period w) (start w) (end_ w) ;;
  let s_title :=
    if model =? "HRP" then
      Some ((p ++ " Hierarchical risk parity portfolio")
            ++ (" using " ++ codependence ++ " codependence," ++ nl ++ linkage))
    else if model =? "HERC" then
      Some ((p ++ " Hierarchical equal risk contribution portfolio")
            ++ (" using " ++ codependence ++ nl ++ "codependence," ++ linkage))
    else if model =? "NCO" then
      Some ((p ++ " Nested clustered optimization")
            ++ (" using " ++ codependence ++ " codependence," ++ nl ++ linkage))
    else None in
  s_title <- load_local "s_title" s_title ;;
  name <- getitem risk_names risk_measure ;;
  let s_title :=
    s_title ++ (" linkage and " ++ name ++ " as risk measure" ++ nl) in
  obj <- getitem objectives_choices (hc_objective o) ;;
  rm <- getitem risk_choices risk_measure ;;
  r <- consult "get_hcp_portfolio"
         (get_hcp_portfolio w (hc_with_codes o obj rm)) ;;
  match fst r with
  | None => emit no_solution ;; ret None
  | Some weights =>
      let stock_returns := snd r in
      emit (ConsolePrint [nl; s_title]) ;;
      display_weights weights false ;;
      rm <- getitem risk_choices risk_measure ;;
      portfolio_performance weights stock_returns (freq w) rm
        (hc_risk_free_rate o) (hc_alpha o) (hc_a_sim o) (hc_beta o)
        (hc_b_sim o) ;;
      emit (ConsolePrint [""]) ;;
      ret (Some weights)
  end.

Definition display_hrp (w : window) (o : hcp_opts) : py (option weights_t) :=
  display_hcp w (hc_for_model o "HRP").

Definition display_herc (w : window) (o : hcp_opts) : py (option weights_t) :=
  display_hcp w (hc_for_model o "HERC").

Definition display_nco (w : window) (o : hcp_opts) : py (option weights_t) :=
  display_hcp w (hc_for_nco o).

(** *** The display functions that consult an optimizer *)

Inductive optimizer_display : Type :=
| MeanRisk (o : mean_risk_opts)
| MaxSharpe (o : mean_risk_opts)
| MinRisk (o : mean_risk_opts)
| MaxUtil (o : mean_risk_opts)
| MaxRet (o : mean_risk_opts)
| MaxDiv (o : diversification_opts)
| MaxDecorr (o : diversification_opts)
| RiskParity (o : risk_parity_opts)
| RelRiskParity (o : rel_risk_parity_opts)
| Hcp (o : hcp_opts)
| Hrp (o : hcp_opts)
| Herc (o : hcp_opts)
| Nco (o : hcp_opts).

Definition display (w : window) (f : optimizer_display)
  : py (option weights_t) :=
  match f with
  | MeanRisk o => display_mean_risk w o
  | MaxSharpe o => display_max_sharpe w o
  | MinRisk o => display_min_risk w o
  | MaxUtil o => display_max_util w o
  | MaxRet o => display_max_ret w o
  | MaxDiv o => display_max_div w o
  | MaxDecorr o => display_max_decorr w o
  | RiskParity o => display_risk_parity w o
  | RelRiskParity o => display_rel_risk_parity w o
  | Hcp o => display_hcp w o
  | Hrp o => display_hrp w o
  | Herc o => display_herc w o
  | Nco o => display_nco w o
  end.


(** ** The pie chart

    What [pie_chart_weights] hands to the plotting surface: the wedges (a
    label and a size each), the text drawn inside each wedge, the two legends
    and the title.  [matplotlib] calls [autopct] with the share of a wedge in
    percent, 100 times the size over the sum of the sizes. *)

Record pie : Type := mkPie {
  pie_labels : list string;
  pie_sizes : list Q;
  pie_autotexts : list string;
  pie_legend_tickers : list string;
  pie_legend_shares : list string;
  pie_title : string
}.

Definition my_autopct (x : Q) : string :=
  if Qlt_bool 4 x then fmt 2 x ++ " %" else "".

(** The loop over [zip(init_stocks, init_sizes)]. *)
Fixpoint positive_slices (items : list (string * Q)) : list string * list Q :=
  match items with
  | [] => ([], [])
  | (stock, size) :: rest =>
      let (stocks, sizes) := positive_slices rest in
      if Qlt_bool 0 size then (stock :: stocks, size :: sizes)
      else (stocks, sizes)
  end.

Definition pie_chart_weights (weights : weights_t) (title_opt : string)
  : option pie :=
  match weights with
  | [] => None
  | _ :: _ =>
      let (stocks, sizes) := positive_slices weights in
      let total_size := Qsum sizes in
      let autotexts :=
        if isclose (float_sum sizes) 1 0.1 then
          List.map (fun x => my_autopct (100 * (x / Qsum sizes))) sizes
        else
          List.map
            (fun s => if Qlt_bool 0.05 (s / total_size) then fmt 2 s else "")
            sizes in
      let leg2 :=
        List.map
          (fun s =>
             (if Qlt_bool (100 * s / total_size) 10 then " " else "")
             ++ fmt 2 (100 * s / total_size) ++ "%")
          sizes in
      let title := ("Portfolio - " ++ title_opt ++ nl) ++ "Portfolio Composition" in
      Some (mkPie stocks sizes autotexts stocks leg2 title)
  end.

End View.

(** ** The efficient frontier

    [display_ef] does not go through [optimizer_model]: it sets up the
    portfolio object of [riskfolio] itself and asks it for the tangency
    portfolio and for the frontier. *)

(** The other keyword arguments of [display_ef]. *)
Record ef_opts : Type := mkEf {
  ef_risk_measure : string;
  ef_risk_free_rate : Q;
  ef_alpha : Q;
  ef_value : Q;
  ef_value_short : Q;
  ef_n_portfolios : Z;
  ef_seed : Z;
  ef_tangency : bool
}.

(** The object [rp.Portfolio(returns=..., alpha=...)] after
    [assets_stats(method_mu="hist", method_cov="hist")], with the attributes
    that [display_ef] assigns; [None] is an attribute left as [riskfolio]
    initializes it. *)
Record portfolio {C : Collaborators} : Type := mkPortfolio {
  port_returns : frame;
  port_alpha : Q;
  port_upperlng : Q;
  port_sht : option bool;
  port_uppersht : option Q;
  port_budget : Q
}.

Arguments mkPortfolio {C} _ _ _ _ _ _.

(** What [display_ef] asks of [riskfolio], [optimizer_model], [pandas],
    [numpy] and [scipy].  A frontier is the list of its columns, one weight
    mapping per portfolio. *)
Class FrontierTools {C : Collaborators} : Type := {
  (** [port.optimization(model="Classic", rm=rm, obj="Sharpe", rf=rf,
      hist=True)]: the tangency portfolio, or [None] *)
  optimization : portfolio -> string -> Q -> option weights_t;
  (** [port.efficient_frontier(model="Classic", rm=rm, points=points, rf=rf,
      hist=True)] *)
  efficient_frontier : portfolio -> string -> Z -> Q -> list weights_t;
  (** [optimizer_model.generate_random_portfolios(stocks, n_portfolios,
      seed)] *)
  generate_random_portfolios : list string -> Z -> Z -> list weights_t;
  (** [mu @ w] for the row [mu = stock_returns.mean().to_frame().T] and one
      column [w] *)
  mean_return : frame -> weights_t -> Q;
  (** [interp1d(X, Y, kind="quadratic")], applied to an array *)
  interp1d : list Q -> list Q -> list Q -> list Q;
  (** [np.linspace(a, b, num=num)] *)
  linspace : Q -> Q -> Z -> list Q
}.

(** What is drawn: the axes ([None] for a figure of its own), the arguments
    of [rp.plot_frontier], the capital allocation line with the left limit
    set for it, the interpolated curve, the title, and whether the figure is
    handed to [theme.visualize_output]. *)
Record frontier_chart : Type := mkFrontierChart {
  fc_axes : option string;
  fc_w_frontier : list weights_t;
  fc_rm : string;
  fc_rf : Q;
  fc_alpha : Q;
  fc_w : option weights_t;
  fc_t_factor : Z;
  fc_line : option (list Q * list Q * Q);
  fc_curve : list Q * list Q;
  fc_title : string;
  fc_visualized : bool
}.

(** A [for] loop that collects one value per element. *)
Fixpoint for_each {A B : Type} (f : A -> py B) (xs : list A) : py (list B) :=
  match xs with
  | [] => ret []
  | x :: xs' => y <- f x ;; ys <- for_each f xs' ;; ret (y :: ys)
  end.

(** [xs[0]] and [xs[-1]]. *)
Definition first_item {A : Type} (xs : list A) : py A :=
  match xs with
  | [] => raise IndexError
  | x :: _ => ret x
  end.

Definition last_item {A : Type} (xs : list A) : py A :=
  match rev xs with
  | [] => raise IndexError
  | x :: _ => ret x
  end.

(** [min(xs)]. *)
Definition min_item (xs : list Q) : py Q :=
  match xs with
  | [] => raise ValueError
  | x :: xs' => ret (fold_left Qmin xs' x)
  end.

(** The list local to [display_ef]: the measures it does not annualize. *)
Definition ef_not_annualized : list string :=
  [ "ADD"; "MDD"; "CDaR"; "EDaR"; "UCI" ].

Section FrontierView.

Context {C : Collaborators} {F : FrontierTools}.

Definition display_ef (w : window) (o : ef_opts)
  (external_axes : option (list string)) : py frontier_chart :=
  let risk_measure := ef_risk_measure o in
  let alpha := ef_alpha o in
  let stock_returns := returns_provider w in
  tf <- getitem time_factor (Str.upper (freq w)) ;;
  risk_free_rate <- fdiv (ef_risk_free_rate o) (inject_Z tf) ;;
  let port :=
    if Qlt_bool 0 (ef_value_short o) then
      mkPortfolio stock_returns alpha (ef_value o) (Some true)
        (Some (ef_value_short o)) (ef_value o - ef_value_short o)
    else
      mkPortfolio stock_returns alpha (ef_value o) None None (ef_value o) in
  rm <- getitem risk_choices risk_measure ;;
  let weights := optimization port rm risk_free_rate in
  emit (Consult "Portfolio.optimization" weights) ;;
  rm <- getitem risk_choices risk_measure ;;
  let frontier := efficient_frontier port rm 20 risk_free_rate in
  let random_weights :=
    generate_random_portfolios (stocks w) (ef_n_portfolios o) (ef_seed o) in
  let cov := cov stock_returns in
  tf <- getitem time_factor (Str.upper (freq w)) ;;
  let Y :=
    List.map (fun col => (mean_return stock_returns col * inject_Z tf)%Q)
      frontier in
  X <- for_each
         (fun col =>
            rm <- getitem risk_choices risk_measure ;;
            ret (Sharpe_Risk col cov stock_returns rm risk_free_rate alpha
                   100 None None))
         frontier ;;
  rm <- getitem risk_choices risk_measure ;;
  X <- (if negb (str_in rm ef_not_annualized) then
          tf <- getitem time_factor (Str.upper (freq w)) ;;
          ret (List.map (fun x => (x * pow_half (inject_Z tf))%Q) X)
        else ret X) ;;
  let f := interp1d X Y in
  x_first <- first_item X ;;
  x_last <- last_item X ;;
  let X1 := linspace x_first x_last 100 in
  let Y1 := f X1 in
  ax <- match external_axes with
        | None => ret None
        | Some axes => a <- first_item axes ;; ret (Some a)
        end ;;
  let frontier := (frontier ++ random_weights)%list in
  rm <- getitem risk_choices risk_measure ;;
  tf <- getitem time_factor (Str.upper (freq w)) ;;
  let plotted_rm := rm in
  let plotted_tf := tf in
  line <-
    (if ef_tangency o then
       match weights with
       | None => raise (OperandError "mu @ weights")
       | Some wts =>
           tf <- getitem time_factor (Str.upper (freq w)) ;;
           let ret_sharpe := (mean_return stock_returns wts * inject_Z tf)%Q in
           rm <- getitem risk_choices risk_measure ;;
           let risk_sharpe :=
             Sharpe_Risk wts cov stock_returns rm risk_free_rate alpha
               100 None None in
           rm <- getitem risk_choices risk_measure ;;
           risk_sharpe <-
             (if negb (str_in rm ef_not_annualized) then
                tf <- getitem time_factor (Str.upper (freq w)) ;;
                ret (risk_sharpe * pow_half (inject_Z tf))%Q
              else ret risk_sharpe) ;;
           let y := (ret_sharpe * 1.5)%Q in
           tf <- getitem time_factor (Str.upper (freq w)) ;;
           let b := (risk_free_rate * inject_Z tf)%Q in
           m <- fdiv (ret_sharpe - b) risk_sharpe ;;
           x2 <- fdiv (y - b) m ;;
           lowest <- min_item X1 ;;
           ret (Some ([0; x2], [b; y], lowest * 0.8))%Q
       end
     else ret None) ;;
  let title :=
    "Efficient Frontier simulating " ++ Str.of_Z (ef_n_portfolios o)
    ++ " portfolios" in
  ret (mkFrontierChart ax frontier plotted_rm risk_free_rate alpha weights
         plotted_tf line (X1, Y1) title
         (match external_axes with None => true | Some _ => false end)).

End FrontierView.

(** ** A sample world

    Concrete collaborators, to run the view on concrete requests: a calendar,
    decimal formatting of rationals, return tables as rows of per-asset
    returns, and optimizers that split the allocated value equally and have no
    solution for a target return above 1. *)

Module Sample.

(** Year, month and day of an ordinal. *)
Definition ymd (d : Date.t) : Z * Z * Z :=
  let z := (d + 305)%Z in
  let era := (z / 146097)%Z in
  let doe := (z - era * 146097)%Z in
  let yoe := ((doe - doe / 1460 + doe / 36524 - doe / 146096) / 365)%Z in
  let doy := (doe - (365 * yoe + yoe / 4 - yoe / 100))%Z in
  let mp := ((5 * doy + 2) / 153)%Z in
  let dd := (doy - (153 * mp + 2) / 5 + 1)%Z in
  let m := (if mp <? 10 then mp + 3 else mp - 9)%Z in
  ((if m <=? 2 then yoe + era * 400 + 1 else yoe + era * 400)%Z, m, dd).

(** A natural number in decimal, padded with zeros to [width] digits. *)
Definition pad (width : nat) (n : Z) : string :=
  let s := Str.of_Z n in
  String.concat EmptyString (repeat "0" (width - String.length s)) ++ s.

Definition strftime (d : Date.t) : string :=
  let '(y, m, dd) := ymd d in
  pad 4 y ++ "-" ++ pad 2 m ++ "-" ++ pad 2 dd.

(** [q] rounded to the nearest multiple of [10 ^ -n], ties to even. *)
Definition round_scaled (n : nat) (q : Q) : Z :=
  let num := (Qnum q * 10 ^ Z.of_nat n)%Z in
  let den := Z.pos (Qden q) in
  let lo := (num / den)%Z in
  let r2 := (2 * (num - lo * den))%Z in
  if (r2 <? den)%Z then lo
  else if (den <? r2)%Z then (lo + 1)%Z
  else if Z.even lo then lo else (lo + 1)%Z.

Definition fmt (n : nat) (q : Q) : string :=
  let r := round_scaled n q in
  let a := Z.abs r in
  let p := (10 ^ Z.of_nat n)%Z in
  let int_part := Str.of_Z (a / p) in
  let sign := if Qlt_bool q 0 then "-" else EmptyString in
  match n with
  | O => sign ++ int_part
  | S _ => sign ++ int_part ++ "." ++ pad n (a mod p)
  end.

(** Enough for the values used below: one decimal when that is exact, four
    otherwise. *)
Definition str_float (q : Q) : string :=
  if Qeq_bool (inject_Z (round_scaled 1 q) / 10) q then fmt 1 q else fmt 4 q.

(** The square root to six decimals. *)
Definition pow_half (q : Q) : Q :=
  (inject_Z (Z.sqrt ((Qnum q * 10 ^ 12) / Z.pos (Qden q))) / inject_Z (10 ^ 6))%Q.

Definition frame : Type := list (list Q).

Fixpoint dot (xs ys : list Q) : Q :=
  match xs, ys with
  | x :: xs', y :: ys' => (x * y + dot xs' ys')%Q
  | _, _ => 0%Q
  end.

Definition matmul (returns : frame) (weights : weights_t) : frame :=
  List.map (fun row => [dot row (values weights)]) returns.

Definition column (f : frame) : list Q := List.map (fun row => hd 0%Q row) f.

Definition mean (xs : list Q) : Q :=
  (Qsum xs / inject_Z (Z.of_nat (List.length xs)))%Q.

Definition mean_item (f : frame) : Q := mean (column f).

Definition std_item (f : frame) : Q :=
  let xs := column f in
  let m := mean xs in
  pow_half (Qsum (List.map (fun x => (x - m) * (x - m))%Q xs)
            / inject_Z (Z.of_nat (List.length xs - 1)))%Q.

Definition cov (f : frame) : frame := f.

(** The mean absolute deviation of the portfolio, whatever the measure. *)
Definition Sharpe_Risk (w : weights_t) (c returns : frame) (rm : string)
  (rf alpha a_sim : Q) (beta b_sim : option Q) : Q :=
  let xs := column (matmul returns w) in
  let m := mean xs in
  mean (List.map (fun x => Qabs (x - m)) xs).

(** Three observations of four assets. *)
Definition returns_provider (w : window) : frame :=
  [ [0.01; 0.02; 0.00; 0.01];
    [-0.01; 0.00; 0.01; 0.02];
    [0.02; 0.01; 0.01; 0.00] ]%Q.

Definition equal_split (w : window) (value : Q) : weights_t :=
  List.map (fun s => (s, value / inject_Z (Z.of_nat (List.length (stocks w)))))%Q
    (stocks w).

Definition solve (w : window) (target_return value : Q)
  : option weights_t * frame :=
  (if Qlt_bool 1 target_return then None else Some (equal_split w value),
   returns_provider w).

(** Saturday 2022-06-11. *)
Definition saturday : Date.t := 738317%Z.

#[export] Instance world : Collaborators := {
  today := saturday;
  strftime := strftime;
  str_float := str_float;
  fmt := fmt;
  pow_half := pow_half;
  frame := frame;
  matmul := matmul;
  mean_item := mean_item;
  std_item := std_item;
  cov := cov;
  Sharpe_Risk := Sharpe_Risk;
  returns_provider := returns_provider;
  get_property_weights := fun w _ value => (equal_split w value, returns_provider w);
  get_mean_risk_portfolio := fun w o => solve w (mr_target_return o) (mr_value o);
  get_max_diversification_portfolio := fun w o => solve w (dv_value_short o) (dv_value o);
  get_max_decorrelation_portfolio := fun w o => solve w (dv_value_short o) (dv_value o);
  get_risk_parity_portfolio := fun w o => solve w (rp_target_return o) (rp_value o);
  get_rel_risk_parity_portfolio := fun w o => solve w (rr_target_return o) (rr_value o);
  get_hcp_portfolio := fun w o => solve w (hc_alpha o) (hc_value o)
}.

(** A second world, where the significance level matters: the risk scorer
    grows with [alpha], and the mean-risk and risk-parity optimizers read
    [alpha] for the entropic measure "EVaR" only, for which they have no
    solution at a level below 0.02. *)
Definition tail_world : Collaborators :=
  Build_Collaborators saturday strftime str_float fmt pow_half frame matmul
    mean_item std_item cov
    (fun w c returns rm rf alpha a_sim beta b_sim =>
       Sharpe_Risk w c returns rm rf alpha a_sim beta b_sim * (1 + alpha))%Q
    returns_provider
    (fun w _ value => (equal_split w value, returns_provider w))
    (fun w o =>
       if (mr_risk_measure o =? "EVaR") && Qlt_bool (mr_alpha o) 0.02
       then (None, returns_provider w)
       else solve w (mr_target_return o) (mr_value o))
    (fun w o => solve w (dv_value_short o) (dv_value o))
    (fun w o => solve w (dv_value_short o) (dv_value o))
    (fun w o =>
       if (rp_risk_measure o =? "EVaR") && Qlt_bool (rp_alpha o) 0.02
       then (None, returns_provider w)
       else solve w (rp_target_return o) (rp_value o))
    (fun w o => solve w (rr_target_return o) (rr_value o))
    (fun w o => solve w (hc_alpha o) (hc_value o)).

Definition tickers : list string := ["AAPL"; "MSFT"; "AMZN"; "TSLA"].

(** Tools for the frontier: no tangency portfolio unless the budget is
    positive, a frontier of three portfolios, no random portfolio, a curve
    through the two ends. *)
#[export] Instance frontier_tools : FrontierTools (C := world) := {
  optimization := fun port rm rf =>
    if Qlt_bool 0 (port_budget port)
    then Some (List.map (fun s => (s, port_budget port / 4)%Q) tickers)
    else None;
  efficient_frontier := fun port rm points rf =>
    [ [("AAPL", 1); ("MSFT", 0); ("AMZN", 0); ("TSLA", 0)];
      [("AAPL", 1 # 4); ("MSFT", 1 # 4); ("AMZN", 1 # 4); ("TSLA", 1 # 4)];
      [("AAPL", 0); ("MSFT", 0); ("AMZN", 0); ("TSLA", 1)] ]%Q;
  generate_random_portfolios := fun stocks n seed => [];
  mean_return := fun f wts => mean_item (matmul f wts);
  interp1d := fun X Y X1 => List.map (fun _ => hd 0%Q Y) X1;
  linspace := fun a b num => [a; b]
}.

(** The four tickers over the three years to today, daily returns. *)
Definition window_3y : window :=
  mkWindow tickers "3y" EmptyString EmptyString false "D" 0.05 0 "time".

(** The four tickers from a fixed start date to the last weekday. *)
Definition window_from : window :=
  mkWindow tickers "3y" "2022-01-03" EmptyString false "D" 0.05 0 "time".

Definition mean_risk_defaults : mean_risk_opts :=
  mkMeanRisk "mv" "sharpe" 0 1 0.05 (-1) (-1) "hist" "hist" 0.94 1 0.

Definition diversification_defaults : diversification_opts :=
  mkDiversification "hist" 0.94 1 0.

Definition risk_parity_defaults : risk_parity_opts :=
  mkRiskParity "mv" None 0 0.05 (-1) "hist" "hist" 0.94 1.

Definition rel_risk_parity_defaults : rel_risk_parity_opts :=
  mkRelRiskParity "A" None 1 (-1) "hist" "hist" 0.94 1.

Definition hcp_defaults : hcp_opts :=
  mkHcp "HRP" "pearson" "hist" "minrisk" "mv" 0 1 0.05 100 None None "ward"
    0 10 "KN" 0.05 true 0.94 1.

End Sample.

(** ** Notions used in the statements *)

(** A risk-parity request with another significance level. *)
Definition rp_with_alpha (o : risk_parity_opts) (alpha : Q) : risk_parity_opts :=
  mkRiskParity (rp_risk_measure o) (rp_risk_cont o) (rp_risk_free_rate o) alpha
    (rp_target_return o) (rp_mean o) (rp_covariance o) (rp_d_ewma o)
    (rp_value o).

(** Two weights of [i] and [j] hundredths that add up to 0.90 on paper and
    to the double just below 0.9 in binary64. *)
Definition falls_short (i j : Z) : bool :=
  ((i + j =? 90) &&
   existsb (Z.eqb (Z.min i j))
     [6; 7; 8; 18; 19; 20; 21; 29; 30; 31; 32; 33; 41; 42; 43])%Z.

(** Two weights of [i] and [j] hundredths that [display_weights] reads as
    fractions of a whole. *)
Definition hundredths_as_percent (i j : Z) : bool :=
  ((90 <=? i + j) && (i + j <=? 111))%Z && negb (falls_short i j).

(** The weights from 0.00 to 1.20 in hundredths, each with the double
    that holds it. *)
Definition hundredths : list (Z * Binary64.double) :=
  Eval vm_compute in
    List.map (fun k => (k, Binary64.of_Q (k # 100)))
      (List.map Z.of_nat (seq 0 121)).

(** A decimal digit, and a string made of decimal digits. *)
Definition is_digit (c : ascii) : bool :=
  ((48 <=? nat_of_ascii c) && (nat_of_ascii c <=? 57))%nat.

Fixpoint all_digits (s : string) : bool :=
  match s with
  | EmptyString => true
  | String c s' => is_digit c && all_digits s'
  end.

(** A run that consults the optimizer [name], is answered by the sentinel,
    prints the one notice and returns [None]. *)
Definition only_the_notice (name : string) (m : py (option weights_t)) : Prop :=
  m = ([Consult name None; no_solution], Returned None).


(** The events of a performance report and of its closing blank line. *)
Definition is_report (e : event) : bool :=
  match e with
  | PrintLine _ => true
  | ConsolePrint [EmptyString] => true
  | _ => false
  end.

(** The lines written by [print]. *)
Definition printed_lines {A : Type} (m : py A) : list string :=
  flat_map (fun e => match e with PrintLine l => [l] | _ => [] end) (trace m).

(** * Properties *)

(** ** Dictionaries *)

Lemma dict_get_In {V : Type} (d : dict V) (k : string) (v : V) :
  dict_get d k = Some v -> In (k, v) d.
Proof.
  induction d as [| [k' v'] d IH]; simpl; [discriminate |].
  destruct (String.eqb_spec k' k) as [-> | _].
  - intros [= ->]. now left.
  - intros H. right. now apply IH.
Qed.

Lemma dict_get_keys {V : Type} (d : dict V) (k : string) :
  In k (keys d) <-> exists v, dict_get d k = Some v.
Proof.
  induction d as [| [k' v'] d IH]; simpl.
  - split; [tauto | intros [v H]; discriminate].
  - destruct (String.eqb_spec k' k) as [-> | Hne].
    + split; [intros _; now exists v' | intros _; now left].
    + rewrite IH. split; [intros [H | H]; [contradiction | exact H] | now right].
Qed.

Lemma dict_get_None {V : Type} (d : dict V) (k : string) :
  dict_get d k = None <-> ~ In k (keys d).
Proof.
  rewrite dict_get_keys. destruct (dict_get d k) as [v |].
  - split; [discriminate | intros H; exfalso; apply H; now exists v].
  - split; [intros _ [v H]; discriminate | reflexivity].
Qed.

(** A dictionary whose values are pairwise distinct sends a value back to one
    key only. *)
Lemma dict_get_injective {V : Type} (d : dict V) :
  NoDup (values d) ->
  forall k1 k2 v,
    dict_get d k1 = Some v -> dict_get d k2 = Some v -> k1 = k2.
Proof.
  induction d as [| [k' v'] d IH]; simpl; intros Hnd k1 k2 v; [discriminate |].
  apply NoDup_cons_iff in Hnd. destruct Hnd as [Hnotin Hnd'].
  assert (Hin : forall k, dict_get d k = Some v' -> False).
  { intros k Hk. apply Hnotin.
    apply dict_get_In in Hk. now apply (in_map snd) in Hk. }
  destruct (String.eqb_spec k' k1) as [E1 | _], (String.eqb_spec k' k2) as [E2 | _].
  - congruence.
  - intros [= <-] H2. now apply Hin in H2.
  - intros H1 [= <-]. now apply Hin in H1.
  - now apply IH.
Qed.

Lemma str_in_In (x : string) (l : list string) : str_in x l = true <-> In x l.
Proof.
  unfold str_in. rewrite existsb_exists. split.
  - intros [y [Hy Heq]]. apply String.eqb_eq in Heq. now subst.
  - intros H. exists x. split; [exact H | apply String.eqb_refl].
Qed.

Lemma distinct_NoDup (l : list string) : distinct l = true -> NoDup l.
Proof.
  induction l as [| x l IH]; simpl; [constructor |].
  intros H. apply andb_prop in H. destruct H as [Hx Hl].
  constructor; [| now apply IH].
  intros Hin. apply str_in_In in Hin. rewrite Hin in Hx. discriminate.
Qed.

(** C3.  The two risk-measure tables [risk_names] and [risk_choices] have the
    same keys, every key of one has an entry in both, and in each table two
    different keys never share a value. *)
Theorem risk_tables_total_and_unique :
  keys risk_names = keys risk_choices /\
  NoDup (keys risk_choices) /\
  (forall k, In k (keys risk_choices) ->
     exists name code,
       dict_get risk_names k = Some name /\ dict_get risk_choices k = Some code) /\
  (forall k1 k2 v,
     dict_get risk_names k1 = Some v -> dict_get risk_names k2 = Some v ->
     k1 = k2) /\
  (forall k1 k2 v,
     dict_get risk_choices k1 = Some v -> dict_get risk_choices k2 = Some v ->
     k1 = k2).
Proof.
  assert (Hkeys : keys risk_names = keys risk_choices) by reflexivity.
  split; [exact Hkeys |].
  split; [apply distinct_NoDup; vm_compute; reflexivity |].
  split.
  - intros k Hk.
    assert (Hk' : In k (keys risk_names)) by (rewrite Hkeys; exact Hk).
    apply dict_get_keys in Hk. apply dict_get_keys in Hk'.
    destruct Hk as [code Hc], Hk' as [name Hn]. now exists name, code.
  - split; apply dict_get_injective; apply distinct_NoDup; vm_compute; reflexivity.
Qed.

(** ** The [py] monad *)

Lemma bind_ret {A B : Type} (a : A) (f : A -> py B) : bind (ret a) f = f a.
Proof. unfold bind, ret. destruct (f a) as [t o]. reflexivity. Qed.

Lemma bind_raise {A B : Type} (e : exn) (f : A -> py B) :
  bind (raise e) f = raise e.
Proof. reflexivity. Qed.

Lemma bind_emit {B : Type} (e : event) (f : unit -> py B) :
  bind (emit e) f = (e :: trace (f tt), result (f tt)).
Proof. unfold bind, emit, trace, result. destruct (f tt) as [t o]. reflexivity. Qed.

Lemma trace_bind {A B : Type} (m : py A) (f : A -> py B) :
  trace (bind m f) =
  (trace m ++ match result m with
              | Returned a => trace (f a)
              | Raised _ => []
              end)%list.
Proof.
  destruct m as [t [a | e]]; unfold bind, trace, result; simpl.
  - destruct (f a) as [t' o]. reflexivity.
  - now rewrite app_nil_r.
Qed.


Lemma py_eta {A : Type} (m : py A) : m = (trace m, result m).
Proof. now destruct m. Qed.

Lemma bind_quiet {A B : Type} (m : py A) (f : A -> py B) :
  quiet m ->
  bind m f = match result m with
             | Returned a => f a
             | Raised e => raise e
             end.
Proof.
  destruct m as [t [a | e]]; unfold quiet, trace, result; simpl; intros ->.
  - apply (bind_ret a f).
  - reflexivity.
Qed.

Lemma quiet_ret {A : Type} (a : A) : quiet (ret a).
Proof. reflexivity. Qed.

Lemma quiet_raise {A : Type} (e : exn) : quiet (@raise A e).
Proof. reflexivity. Qed.

Lemma quiet_bind {A B : Type} (m : py A) (f : A -> py B) :
  quiet m -> (forall a, quiet (f a)) -> quiet (bind m f).
Proof.
  unfold quiet. intros Hm Hf. rewrite trace_bind, Hm.
  destruct (result m); [apply Hf | reflexivity].
Qed.

Lemma quiet_getitem {V : Type} (d : dict V) (k : string) : quiet (getitem d k).
Proof. unfold getitem. now destruct (dict_get d k). Qed.

Lemma quiet_load_local {A : Type} (name : string) (v : option A) :
  quiet (load_local name v).
Proof. now destruct v. Qed.

Lemma quiet_last_char (s : string) : quiet (last_char s).
Proof. unfold last_char. now destruct (Str.last s). Qed.

Lemma quiet_fdiv (a b : Q) : quiet (fdiv a b).
Proof. unfold fdiv. now destruct (Qeq_bool b 0). Qed.

Create HintDb quiet.
#[export] Hint Resolve quiet_ret quiet_raise quiet_getitem quiet_load_local
  quiet_last_char quiet_fdiv : quiet.

(** ** [d_period] *)

Section DPeriod.

Context {C : Collaborators}.

Lemma quiet_d_period (period start end_ : string) :
  quiet (d_period period start end_).
Proof.
  unfold d_period. destruct (start =? EmptyString); [| reflexivity].
  apply quiet_bind.
  - destruct (dict_mem extra_choices period).
    + apply quiet_bind; auto with quiet.
    + apply quiet_bind; auto with quiet. intros c.
      repeat (match goal with |- quiet (if ?b then _ else _) => destruct b end);
        reflexivity.
  - intros p. apply quiet_bind; auto with quiet. intros q.
    destruct (Str.slice 1 3 q =? "1 "); reflexivity.
Qed.

Lemma last_None (s : string) : Str.last s = None <-> s = EmptyString.
Proof.
  split; [| now intros ->].
  induction s as [| a s IH]; [reflexivity |].
  simpl. destruct s as [| b s']; [discriminate |].
  intros H. apply IH in H. discriminate.
Qed.

Lemma dict_mem_extra_choices (period : string) :
  period <> "ytd" -> period <> "max" -> dict_mem extra_choices period = false.
Proof.
  intros Hy Hm. unfold dict_mem.
  assert (H : dict_get extra_choices period = None).
  { apply dict_get_None. simpl. intros [E | [E | []]]; congruence. }
  now rewrite H.
Qed.

(** C9, as amended.  With an empty [start] and a period that is neither
    "ytd" nor "max" and does not end in d, w, o or y, [d_period] never returns
    a range: a period that is not empty leaves [p] unassigned and reading it
    fails, and the empty period fails earlier, on [period[-1]], with an index
    error. *)
Theorem d_period_partial (period end_ : string) :
  period <> "ytd" -> period <> "max" ->
  (forall c, Str.last period = Some c ->
     c <> "d"%char /\ c <> "w"%char /\ c <> "o"%char /\ c <> "y"%char) ->
  (period <> EmptyString ->
   d_period period EmptyString end_ = ([], Raised (UnboundLocalError "p"))) /\
  (period = EmptyString ->
   d_period period EmptyString end_ = ([], Raised IndexError)).
Proof.
  intros Hy Hm Hlast. unfold d_period. simpl.
  rewrite (dict_mem_extra_choices period Hy Hm).
  unfold last_char. split.
  - intros Hne. destruct (Str.last period) as [c |] eqn:E.
    + destruct (Hlast c eq_refl) as (Hd & Hw & Ho & Hyy).
      rewrite bind_ret.
      apply Ascii.eqb_neq in Hd, Hw, Ho, Hyy.
      rewrite Hd, Hw, Ho, Hyy. reflexivity.
    + apply last_None in E. contradiction.
  - intros ->. reflexivity.
Qed.

(** C10.  With a [start] and no [end], the range ends on a working day: on
    today when today is one, and otherwise on the latest Friday before
    today. *)
Theorem d_period_ends_on_weekday (period start : string) :
  start <> EmptyString ->
  exists d : Date.t,
    d_period period start EmptyString
    = ([], Returned ("[From " ++ start ++ " to " ++ strftime d ++ "]")) /\
    (0 <= Date.weekday d <= 4)%Z /\
    ((Date.weekday today < 5)%Z -> d = today) /\
    ((5 <= Date.weekday today)%Z ->
     Date.weekday d = Date.FR /\ (d < today)%Z /\
     forall d' : Date.t, (d < d' <= today)%Z -> Date.weekday d' <> Date.FR).
Proof.
  intros Hstart. unfold d_period.
  apply String.eqb_neq in Hstart. rewrite Hstart. simpl.
  destruct (Z.leb_spec 5 (Date.weekday today)) as [Hwe | Hwd].
  - exists (Date.add_relativedelta_weekday today Date.FR (-1)).
    split; [reflexivity |].
    unfold Date.add_relativedelta_weekday, Date.weekday, Date.FR in *. simpl.
    repeat split; intros; Z.div_mod_to_equations; lia.
  - exists today. split; [reflexivity |].
    unfold Date.weekday, Date.FR in *.
    repeat split; intros; Z.div_mod_to_equations; lia.
Qed.

End DPeriod.

(** The empty period: the failure is the index error of [period[-1]], and
    [p] is never read. *)
Lemma d_period_empty_period_index_error :
  d_period (C := Sample.world) EmptyString EmptyString EmptyString
  = ([], Raised IndexError) /\
  d_period (C := Sample.world) EmptyString EmptyString EmptyString
  <> ([], Raised (UnboundLocalError "p")).
Proof. split; [reflexivity | discriminate]. Qed.

Lemma d_period_partial_witness :
  "5x" <> "ytd" /\ "5x" <> "max" /\
  Str.last "5x" = Some "x"%char /\
  d_period (C := Sample.world) "5x" EmptyString EmptyString
  = ([], Raised (UnboundLocalError "p")).
Proof.
  assert (H1 : "5x" <> "ytd") by discriminate.
  assert (H2 : "5x" <> "max") by discriminate.
  assert (H3 : forall c, Str.last "5x" = Some c ->
                c <> "d"%char /\ c <> "w"%char /\ c <> "o"%char /\ c <> "y"%char).
  { intros c [= <-]. repeat split; discriminate. }
  split; [exact H1 |]. split; [exact H2 |]. split; [reflexivity |].
  apply (proj1 (@d_period_partial Sample.world "5x" EmptyString H1 H2 H3)).
  discriminate.
Defined.

Lemma d_period_ends_on_weekday_witness :
  "2022-01-03" <> EmptyString /\
  exists d : Date.t,
    d_period (C := Sample.world) "3y" "2022-01-03" EmptyString
    = ([], Returned ("[From 2022-01-03 to " ++ Sample.strftime d ++ "]")) /\
    Date.weekday d = Date.FR /\ (d < Sample.saturday)%Z.
Proof.
  assert (H : "2022-01-03" <> EmptyString) by discriminate.
  split; [exact H |].
  destruct (@d_period_ends_on_weekday Sample.world "3y" "2022-01-03" H)
    as (d & Hrun & _ & _ & Hweekend).
  exists d. split; [exact Hrun |].
  destruct Hweekend as (Hfr & Hlt & _); [vm_compute; discriminate | ].
  split; assumption.
Defined.

(** ** Consulting and printing *)

Lemma consulted_bind {A B : Type} (m : py A) (f : A -> py B) :
  consulted (bind m f) =
  consulted m || match result m with
                 | Returned a => consulted (f a)
                 | Raised _ => false
                 end.
Proof.
  unfold consulted. rewrite trace_bind, existsb_app.
  now destruct (result m).
Qed.

Lemma no_consult_bind {A B : Type} (m : py A) (f : A -> py B) :
  no_consult m -> (forall a, no_consult (f a)) -> no_consult (bind m f).
Proof.
  unfold no_consult. intros Hm Hf. rewrite consulted_bind, Hm.
  destruct (result m); [apply Hf | reflexivity].
Qed.

Lemma no_consult_quiet {A : Type} (m : py A) : quiet m -> no_consult m.
Proof. unfold quiet, no_consult, consulted. now intros ->. Qed.

Lemma no_consult_emit (e : event) : is_output e = true -> no_consult (emit e).
Proof. unfold no_consult, consulted, emit, trace. simpl. now intros ->. Qed.

Create HintDb consult.
#[export] Hint Resolve no_consult_quiet no_consult_emit : consult.
#[export] Hint Resolve quiet_ret quiet_raise quiet_getitem quiet_load_local
  quiet_last_char quiet_fdiv : consult.

(** Walks through a body made of [bind], [if] and [match]. *)
Ltac no_consult_body :=
  repeat first
    [ apply no_consult_bind; [| intros]
    | match goal with
      | |- no_consult (if ?b then _ else _) => destruct b
      | |- no_consult (match ?x with _ => _ end) => destruct x
      end
    | solve [auto with consult] ].

(** ** The display functions *)

Section Displays.

Context {C : Collaborators}.

Lemma consult_run (name : string) (r : option weights_t * frame) :
  consult name r = ([Consult name (fst r)], Returned r).
Proof. reflexivity. Qed.

Lemma consult_builder_run (name : string) (r : weights_t * frame) :
  consult_builder name r = ([Consult name (Some (fst r))], Returned r).
Proof. reflexivity. Qed.

Lemma bind_returned {A B : Type} (t : list event) (a : A) (f : A -> py B) :
  bind (t, Returned a) f = ((t ++ trace (f a))%list, result (f a)).
Proof. unfold bind, trace, result. now destruct (f a). Qed.

Lemma no_consult_display_weights (weights : weights_t) (market_neutral : bool) :
  no_consult (display_weights weights market_neutral).
Proof.
  unfold display_weights. destruct weights; [auto with consult |].
  destruct (negb market_neutral); auto with consult.
Qed.

Lemma result_display_weights (weights : weights_t) (market_neutral : bool) :
  result (display_weights weights market_neutral) = Returned tt.
Proof.
  unfold display_weights. destruct weights; [reflexivity |].
  destruct (negb market_neutral); reflexivity.
Qed.

Lemma no_consult_portfolio_performance (weights : weights_t)
  (stock_returns : frame) (freq risk_measure : string)
  (risk_free_rate alpha a_sim : Q) (beta b_sim : option Q) :
  no_consult
    (portfolio_performance weights stock_returns freq risk_measure
       risk_free_rate alpha a_sim beta b_sim).
Proof. unfold portfolio_performance. no_consult_body. Qed.

#[local] Hint Resolve no_consult_display_weights
  no_consult_portfolio_performance quiet_d_period : consult.

End Displays.

(** ** Name translation *)

Lemma getitem_Some {V : Type} (d : dict V) (k : string) (v : V) :
  dict_get d k = Some v -> getitem d k = ret v.
Proof. unfold getitem. now intros ->. Qed.

Lemma getitem_None {V : Type} (d : dict V) (k : string) :
  dict_get d k = None -> getitem d k = raise (KeyError k).
Proof. unfold getitem. now intros ->. Qed.

Lemma fdiv_nonzero (a b : Q) : ~ (b == 0)%Q -> fdiv a b = ret (a / b)%Q.
Proof.
  intros H. unfold fdiv. destruct (Qeq_bool b 0) eqn:E; [| reflexivity].
  apply Qeq_bool_iff in E. contradiction.
Qed.

Lemma fdiv_zero (a b : Q) : (b == 0)%Q -> fdiv a b = raise ZeroDivisionError.
Proof.
  intros H. unfold fdiv. apply Qeq_bool_iff in H. now rewrite H.
Qed.

Lemma time_factor_nonzero (k : string) (tf : Z) :
  dict_get time_factor k = Some tf -> ~ (inject_Z tf == 0)%Q.
Proof.
  intros H. apply dict_get_In in H. unfold time_factor in H.
  repeat (destruct H as [[= <- <-] | H]; [discriminate |]).
  destruct H.
Qed.


Lemma risk_names_Some (k code : string) :
  dict_get risk_choices k = Some code ->
  exists name, dict_get risk_names k = Some name.
Proof.
  intros H. apply dict_get_keys.
  replace (keys risk_names) with (keys risk_choices) by reflexivity.
  apply dict_get_keys. now exists code.
Qed.

Section Names.

Context {C : Collaborators}.

#[local] Hint Resolve quiet_d_period : consult.

(** The objectives for which [display_mean_risk] builds a title. *)
Lemma mean_risk_title (objective p : string) :
  In objective ["minrisk"; "sharpe"; "utility"; "maxret"] ->
  exists title,
    (if objective =? "sharpe" then
       Some (p ++ " Maximal return/risk ratio portfolio using" ++ nl)
     else if objective =? "minrisk" then
       Some (p ++ " Minimum risk portfolio using" ++ nl)
     else if objective =? "maxret" then
       Some (p ++ " Maximal return portfolio using" ++ nl)
     else if objective =? "utility" then
       Some (p ++ " Maximal risk averse utility function portfolio using" ++ nl)
     else None) = Some title /\
    exists code, dict_get objectives_choices objective = Some code.
Proof.
  intros [<- | [<- | [<- | [<- | []]]]]; cbn [String.eqb Ascii.eqb Bool.eqb];
    eexists; (split; [reflexivity | eexists; reflexivity]).
Qed.

(** C8.  [objectives_choices] translates "erc", yet [display_mean_risk]
    builds no title for it: once the period is formatted the call fails on
    the unassigned [s_title], and the optimizer is never consulted.  The four
    other keys of the table do reach the optimizer. *)
Theorem mean_risk_rejects_erc (w : window) (o : mean_risk_opts) (p : string) :
  result (d_period (period w) (start w) (end_ w)) = Returned p ->
  mr_objective o = "erc" ->
  dict_get objectives_choices "erc" = Some "ERC" /\
  display_mean_risk w o = ([], Raised (UnboundLocalError "s_title")) /\
  keys objectives_choices = ["minrisk"; "sharpe"; "utility"; "maxret"; "erc"] /\
  forall o' : mean_risk_opts,
    In (mr_objective o') ["minrisk"; "sharpe"; "utility"; "maxret"] ->
    In (mr_risk_measure o') (keys risk_choices) ->
    consulted (display_mean_risk w o') = true.
Proof.
  intros Hp Herc. split; [reflexivity |]. split; [| split; [reflexivity |]].
  - unfold display_mean_risk.
    rewrite bind_quiet by auto with consult. rewrite Hp, Herc. reflexivity.
  - intros o' Hobj Hrm.
    destruct (mean_risk_title (mr_objective o') p Hobj)
      as (title & Htitle & code & Hcode).
    apply dict_get_keys in Hrm. destruct Hrm as [rm Hrm].
    destruct (risk_names_Some _ _ Hrm) as [name Hname].
    unfold display_mean_risk.
    rewrite bind_quiet by auto with consult. rewrite Hp, Htitle.
    cbn [load_local]. rewrite bind_ret.
    rewrite (getitem_Some _ _ _ Hname), bind_ret.
    rewrite (getitem_Some _ _ _ Hrm), bind_ret.
    rewrite (getitem_Some _ _ _ Hcode), bind_ret.
    rewrite consulted_bind. reflexivity.
Qed.

(** The models for which [display_hcp] builds a title. *)
Lemma hcp_title (model a b c : string) :
  In model ["HRP"; "HERC"; "NCO"] ->
  exists title,
    (if model =? "HRP" then Some a
     else if model =? "HERC" then Some b
     else if model =? "NCO" then Some c
     else None) = Some title.
Proof.
  intros [<- | [<- | [<- | []]]]; cbn [String.eqb Ascii.eqb Bool.eqb];
    eexists; reflexivity.
Qed.

End Names.

Lemma mean_risk_rejects_erc_witness :
  let o := mkMeanRisk "mv" "erc" 0 1 0.05 (-1) (-1) "hist" "hist" 0.94 1 0 in
  result (d_period (C := Sample.world) "3y" EmptyString EmptyString)
  = Returned "[3 Years]" /\
  display_mean_risk (C := Sample.world) Sample.window_3y o
  = ([], Raised (UnboundLocalError "s_title")) /\
  consulted (display_mean_risk (C := Sample.world) Sample.window_3y
               Sample.mean_risk_defaults) = true.
Proof.
  intros o.
  assert (Hp : result (d_period (C := Sample.world)
                         (period Sample.window_3y) (start Sample.window_3y)
                         (end_ Sample.window_3y)) = Returned "[3 Years]")
    by reflexivity.
  split; [exact Hp |].
  destruct (@mean_risk_rejects_erc Sample.world Sample.window_3y o _ Hp eq_refl)
    as (_ & Hraise & _ & Hothers).
  split; [exact Hraise |].
  apply Hothers; vm_compute; tauto.
Defined.

(** ** Names that the tables do not know *)

Section UnknownNames.

Context {C : Collaborators} {F : FrontierTools}.

#[local] Hint Resolve quiet_d_period : consult.






End UnknownNames.



(** ** The optimizer has no solution *)

Section NoSolution.

Context {C : Collaborators}.

#[local] Hint Resolve quiet_d_period : consult.

Lemma mean_risk_notice (w : window) (o : mean_risk_opts) (p rm obj : string) :
  result (d_period (period w) (start w) (end_ w)) = Returned p ->
  In (mr_objective o) ["minrisk"; "sharpe"; "utility"; "maxret"] ->
  dict_get risk_choices (mr_risk_measure o) = Some rm ->
  dict_get objectives_choices (mr_objective o) = Some obj ->
  fst (get_mean_risk_portfolio w (with_codes o rm obj)) = None ->
  only_the_notice "get_mean_risk_portfolio" (display_mean_risk w o).
Proof.
  intros Hp Hobj Hrm Hcode Hnone.
  destruct (mean_risk_title (mr_objective o) p Hobj) as (title & Htitle & _).
  destruct (risk_names_Some _ _ Hrm) as [name Hname].
  unfold only_the_notice, display_mean_risk.
  rewrite bind_quiet by auto with consult. rewrite Hp, Htitle.
  cbn [load_local]. rewrite bind_ret.
  rewrite (getitem_Some _ _ _ Hname), bind_ret.
  rewrite (getitem_Some _ _ _ Hrm), bind_ret.
  rewrite (getitem_Some _ _ _ Hcode), bind_ret.
  rewrite consult_run, bind_returned, Hnone. reflexivity.
Qed.

Lemma max_div_notice (w : window) (o : diversification_opts) (p : string) :
  result (d_period (period w) (start w) (end_ w)) = Returned p ->
  fst (get_max_diversification_portfolio w o) = None ->
  only_the_notice "get_max_diversification_portfolio" (display_max_div w o).
Proof.
  intros Hp Hnone. unfold only_the_notice, display_max_div.
  rewrite bind_quiet by auto with consult. rewrite Hp.
  rewrite consult_run, bind_returned, Hnone. reflexivity.
Qed.

Lemma max_decorr_notice (w : window) (o : diversification_opts) (p : string) :
  result (d_period (period w) (start w) (end_ w)) = Returned p ->
  fst (get_max_decorrelation_portfolio w o) = None ->
  only_the_notice "get_max_decorrelation_portfolio" (display_max_decorr w o).
Proof.
  intros Hp Hnone. unfold only_the_notice, display_max_decorr.
  rewrite bind_quiet by auto with consult. rewrite Hp.
  rewrite consult_run, bind_returned, Hnone. reflexivity.
Qed.

Lemma risk_parity_notice (w : window) (o : risk_parity_opts) (p rm : string) :
  result (d_period (period w) (start w) (end_ w)) = Returned p ->
  dict_get risk_choices (rp_risk_measure o) = Some rm ->
  fst (get_risk_parity_portfolio w (rp_with_code o rm)) = None ->
  only_the_notice "get_risk_parity_portfolio" (display_risk_parity w o).
Proof.
  intros Hp Hrm Hnone.
  destruct (risk_names_Some _ _ Hrm) as [name Hname].
  unfold only_the_notice, display_risk_parity.
  rewrite bind_quiet by auto with consult. rewrite Hp.
  rewrite (getitem_Some _ _ _ Hname), bind_ret.
  rewrite (getitem_Some _ _ _ Hrm), bind_ret.
  rewrite consult_run, bind_returned, Hnone. reflexivity.
Qed.

Lemma rel_risk_parity_notice (w : window) (o : rel_risk_parity_opts)
  (p : string) :
  result (d_period (period w) (start w) (end_ w)) = Returned p ->
  fst (get_rel_risk_parity_portfolio w
         (rr_with_version o (Str.upper (rr_version o)))) = None ->
  only_the_notice "get_rel_risk_parity_portfolio"
    (display_rel_risk_parity w o).
Proof.
  intros Hp Hnone. unfold only_the_notice, display_rel_risk_parity.
  rewrite bind_quiet by auto with consult. rewrite Hp.
  rewrite consult_run, bind_returned, Hnone. reflexivity.
Qed.

Lemma hcp_notice (w : window) (o : hcp_opts) (p rm obj : string) :
  result (d_period (period w) (start w) (end_ w)) = Returned p ->
  In (hc_model o) ["HRP"; "HERC"; "NCO"] ->
  dict_get risk_choices (hc_risk_measure o) = Some rm ->
  dict_get objectives_choices (hc_objective o) = Some obj ->
  fst (get_hcp_portfolio w (hc_with_codes o obj rm)) = None ->
  only_the_notice "get_hcp_portfolio" (display_hcp w o).
Proof.
  intros Hp Hmodel Hrm Hcode Hnone.
  destruct (risk_names_Some _ _ Hrm) as [name Hname].
  unfold only_the_notice, display_hcp.
  rewrite bind_quiet by auto with consult. rewrite Hp.
  match goal with
  | |- context [load_local _ (if _ =? _ then Some ?a else if _ =? _ then Some ?b
                             else if _ =? _ then Some ?c else None)] =>
      destruct (hcp_title (hc_model o) a b c Hmodel) as [title ->]
  end.
  cbn [load_local]. rewrite bind_ret.
  rewrite (getitem_Some _ _ _ Hname), bind_ret.
  rewrite (getitem_Some _ _ _ Hcode), bind_ret.
  rewrite (getitem_Some _ _ _ Hrm), bind_ret.
  rewrite consult_run, bind_returned, Hnone. reflexivity.
Qed.

(** C1, as amended.  Once the period is formatted, each of the thirteen
    display functions that take their weights from an optimizer of
    [optimizer_model] translates the names of its request, and when the
    optimizer answers that request with the sentinel, the run is the
    consultation followed by the one notice, with no table and no
    performance line, and the function returns [None] without raising. *)
Theorem no_solution_is_one_notice (w : window) (p : string) :
  result (d_period (period w) (start w) (end_ w)) = Returned p ->
  (forall (o : mean_risk_opts) (rm obj : string),
     In (mr_objective o) ["minrisk"; "sharpe"; "utility"; "maxret"] ->
     dict_get risk_choices (mr_risk_measure o) = Some rm ->
     dict_get objectives_choices (mr_objective o) = Some obj ->
     fst (get_mean_risk_portfolio w (with_codes o rm obj)) = None ->
     only_the_notice "get_mean_risk_portfolio" (display_mean_risk w o)) /\
  (forall (o : mean_risk_opts) (rm : string),
     dict_get risk_choices (mr_risk_measure o) = Some rm ->
     fst (get_mean_risk_portfolio w
            (with_codes (with_objective o "sharpe" 1) rm "Sharpe")) = None ->
     only_the_notice "get_mean_risk_portfolio" (display_max_sharpe w o)) /\
  (forall (o : mean_risk_opts) (rm : string),
     dict_get risk_choices (mr_risk_measure o) = Some rm ->
     fst (get_mean_risk_portfolio w
            (with_codes (with_objective o "minrisk" 1) rm "MinRisk")) = None ->
     only_the_notice "get_mean_risk_portfolio" (display_min_risk w o)) /\
  (forall (o : mean_risk_opts) (rm : string),
     dict_get risk_choices (mr_risk_measure o) = Some rm ->
     fst (get_mean_risk_portfolio w
            (with_codes (with_objective o "utility" (mr_risk_aversion o))
               rm "Utility")) = None ->
     only_the_notice "get_mean_risk_portfolio" (display_max_util w o)) /\
  (forall (o : mean_risk_opts) (rm : string),
     dict_get risk_choices (mr_risk_measure o) = Some rm ->
     fst (get_mean_risk_portfolio w
            (with_codes (with_objective o "maxret" 1) rm "MaxRet")) = None ->
     only_the_notice "get_mean_risk_portfolio" (display_max_ret w o)) /\
  (forall o : diversification_opts,
     fst (get_max_diversification_portfolio w o) = None ->
     only_the_notice "get_max_diversification_portfolio"
       (display_max_div w o)) /\
  (forall o : diversification_opts,
     fst (get_max_decorrelation_portfolio w o) = None ->
     only_the_notice "get_max_decorrelation_portfolio"
       (display_max_decorr w o)) /\
  (forall (o : risk_parity_opts) (rm : string),
     dict_get risk_choices (rp_risk_measure o) = Some rm ->
     fst (get_risk_parity_portfolio w (rp_with_code o rm)) = None ->
     only_the_notice "get_risk_parity_portfolio" (display_risk_parity w o)) /\
  (forall o : rel_risk_parity_opts,
     fst (get_rel_risk_parity_portfolio w
            (rr_with_version o (Str.upper (rr_version o)))) = None ->
     only_the_notice "get_rel_risk_parity_portfolio"
       (display_rel_risk_parity w o)) /\
  (forall (o : hcp_opts) (rm obj : string),
     In (hc_model o) ["HRP"; "HERC"; "NCO"] ->
     dict_get risk_choices (hc_risk_measure o) = Some rm ->
     dict_get objectives_choices (hc_objective o) = Some obj ->
     fst (get_hcp_portfolio w (hc_with_codes o obj rm)) = None ->
     only_the_notice "get_hcp_portfolio" (display_hcp w o)) /\
  (forall (o : hcp_opts) (rm : string),
     dict_get risk_choices (hc_risk_measure o) = Some rm ->
     fst (get_hcp_portfolio w
            (hc_with_codes (hc_for_model o "HRP") "MinRisk" rm)) = None ->
     only_the_notice "get_hcp_portfolio" (display_hrp w o)) /\
  (forall (o : hcp_opts) (rm : string),
     dict_get risk_choices (hc_risk_measure o) = Some rm ->
     fst (get_hcp_portfolio w
            (hc_with_codes (hc_for_model o "HERC") "MinRisk" rm)) = None ->
     only_the_notice "get_hcp_portfolio" (display_herc w o)) /\
  (forall (o : hcp_opts) (rm obj : string),
     dict_get risk_choices (hc_risk_measure o) = Some rm ->
     dict_get objectives_choices (hc_objective o) = Some obj ->
     fst (get_hcp_portfolio w (hc_with_codes (hc_for_nco o) obj rm)) = None ->
     only_the_notice "get_hcp_portfolio" (display_nco w o)).
Proof.
  intros Hp.
  assert (Hfront :
            forall (o : mean_risk_opts) (objective code rm : string)
                   (risk_aversion : Q),
              In objective ["minrisk"; "sharpe"; "utility"; "maxret"] ->
              dict_get objectives_choices objective = Some code ->
              dict_get risk_choices (mr_risk_measure o) = Some rm ->
              fst (get_mean_risk_portfolio w
                     (with_codes (with_objective o objective risk_aversion)
                        rm code)) = None ->
              only_the_notice "get_mean_risk_portfolio"
                (display_mean_risk w (with_objective o objective risk_aversion))).
  { intros o objective code rm ra Hobj Hcode Hrm Hnone.
    now apply (mean_risk_notice w _ p rm code). }
  assert (Hmodel :
            forall (o : hcp_opts) (model rm : string),
              In model ["HRP"; "HERC"; "NCO"] ->
              dict_get risk_choices (hc_risk_measure o) = Some rm ->
              fst (get_hcp_portfolio w
                     (hc_with_codes (hc_for_model o model) "MinRisk" rm))
              = None ->
              only_the_notice "get_hcp_portfolio"
                (display_hcp w (hc_for_model o model))).
  { intros o model rm Hin Hrm Hnone.
    now apply (hcp_notice w _ p rm "MinRisk"). }
  repeat apply conj.
  - intros o rm obj. apply mean_risk_notice with (p := p). exact Hp.
  - intros o rm. apply Hfront; cbn; tauto.
  - intros o rm. apply Hfront; cbn; tauto.
  - intros o rm. apply Hfront; cbn; tauto.
  - intros o rm. apply Hfront; cbn; tauto.
  - intros o. now apply max_div_notice with (p := p).
  - intros o. now apply max_decorr_notice with (p := p).
  - intros o rm. now apply risk_parity_notice with (p := p).
  - intros o. now apply rel_risk_parity_notice with (p := p).
  - intros o rm obj. now apply hcp_notice with (p := p).
  - intros o rm. apply Hmodel; cbn; tauto.
  - intros o rm. apply Hmodel; cbn; tauto.
  - intros o rm obj Hrm Hobj Hnone.
    apply (hcp_notice w _ p rm obj); try assumption. cbn; tauto.
Qed.

End NoSolution.

(** [display_ef] asks [riskfolio] for the tangency portfolio and never looks
    at the answer: when there is none, no notice is printed, and the frontier
    is drawn without it. *)
Lemma display_ef_prints_no_notice :
  let o := mkEf "mv" 0 0.05 1 2 100 123 false in
  let run := display_ef (F := Sample.frontier_tools) Sample.window_3y o None in
  In (Consult "Portfolio.optimization" None) (trace run) /\
  filter is_output (trace run) = [] /\
  ~ In no_solution (trace run) /\
  exists chart : frontier_chart, result run = Returned chart /\ fc_w chart = None.
Proof.
  vm_compute. split; [now left |]. split; [reflexivity |].
  split; [intros [H | []]; discriminate |].
  eexists. split; reflexivity.
Qed.

Lemma no_solution_is_one_notice_witness :
  let w := Sample.window_3y in
  let o := mkMeanRisk "cvar" "minrisk" 0 1 0.05 2 (-1) "hist" "hist" 0.94 1 0 in
  result (d_period (C := Sample.world) (period w) (start w) (end_ w))
  = Returned "[3 Years]" /\
  fst (get_mean_risk_portfolio (Collaborators := Sample.world) w
         (with_codes o "CVaR" "MinRisk")) = None /\
  display_mean_risk (C := Sample.world) w o
  = ([Consult "get_mean_risk_portfolio" None; no_solution], Returned None).
Proof.
  intros w o.
  assert (Hp : result (d_period (C := Sample.world) (period w) (start w) (end_ w))
               = Returned "[3 Years]") by reflexivity.
  assert (Hnone : fst (get_mean_risk_portfolio (Collaborators := Sample.world) w
                         (with_codes o "CVaR" "MinRisk")) = None)
    by reflexivity.
  split; [exact Hp |]. split; [exact Hnone |].
  refine (proj1 (@no_solution_is_one_notice Sample.world w _ Hp)
            o "CVaR" "MinRisk" _ eq_refl eq_refl Hnone).
  cbn. tauto.
Defined.

(** ** The significance level *)

#[export] Hint Resolve quiet_d_period : consult.

(** One step of two runs that share their first call, which prints nothing:
    either it raises in both, or both go on with the value it returns. *)
Ltac same_step :=
  match goal with
  | |- context [bind ?m _] =>
      rewrite !(bind_quiet m) by auto with consult;
      destruct (result m); [| reflexivity]
  end.

Section Alpha.

Context {C : Collaborators}.

(** C6.  [display_equal_weight] and [display_mean_risk] call
    [portfolio_performance] without their [alpha].  Two runs of
    [display_equal_weight] that differ in [alpha] only are the same run.  Two
    runs of [display_mean_risk] that differ in [alpha] only are the same run
    as soon as the optimizer gives the same answer to the two requests sent,
    which carry the translated codes and [alpha]. *)
Theorem alpha_is_ignored (w : window) (o : mean_risk_opts) (a1 a2 : Q) :
  (forall (risk_measure : string) (risk_free_rate value : Q),
     display_equal_weight w risk_measure risk_free_rate a1 value
     = display_equal_weight w risk_measure risk_free_rate a2 value) /\
  ((forall rm obj : string,
      dict_get risk_choices (mr_risk_measure o) = Some rm ->
      dict_get objectives_choices (mr_objective o) = Some obj ->
      get_mean_risk_portfolio w (with_codes (with_alpha o a1) rm obj)
      = get_mean_risk_portfolio w (with_codes (with_alpha o a2) rm obj)) ->
   display_mean_risk w (with_alpha o a1)
   = display_mean_risk w (with_alpha o a2)).
Proof.
  split.
  - intros risk_measure risk_free_rate value. reflexivity.
  - intros Hsame. unfold display_mean_risk.
    change (mr_risk_measure (with_alpha o a1)) with (mr_risk_measure o).
    change (mr_risk_measure (with_alpha o a2)) with (mr_risk_measure o).
    change (mr_objective (with_alpha o a1)) with (mr_objective o).
    change (mr_objective (with_alpha o a2)) with (mr_objective o).
    change (mr_risk_free_rate (with_alpha o a1)) with (mr_risk_free_rate o).
    change (mr_risk_free_rate (with_alpha o a2)) with (mr_risk_free_rate o).
    do 3 same_step.
    destruct (dict_get risk_choices (mr_risk_measure o)) as [rm |] eqn:Hrm;
      [| now rewrite !(getitem_None _ _ Hrm)].
    rewrite !(getitem_Some _ _ _ Hrm), !bind_ret.
    destruct (dict_get objectives_choices (mr_objective o)) as [obj |] eqn:Hobj;
      [| now rewrite !(getitem_None _ _ Hobj)].
    rewrite !(getitem_Some _ _ _ Hobj), !bind_ret.
    rewrite (Hsame rm obj eq_refl eq_refl). reflexivity.
Qed.

End Alpha.

(** In the second sample world the risk scorer and, for "EVaR", the optimizer
    read [alpha]; a request for "cvar" is answered alike at 0.05 and 0.01,
    and the two runs print the same report, with the risk scored at the
    default level of [portfolio_performance]. *)
Lemma alpha_is_ignored_witness :
  let C := Sample.tail_world in
  let w := Sample.window_3y in
  let o := mkMeanRisk "cvar" "minrisk" 0 1 0.05 (-1) (-1) "hist" "hist" 0.94 1 0 in
  (forall rm obj : string,
     dict_get risk_choices (mr_risk_measure o) = Some rm ->
     dict_get objectives_choices (mr_objective o) = Some obj ->
     get_mean_risk_portfolio (Collaborators := C) w
       (with_codes (with_alpha o 0.05) rm obj)
     = get_mean_risk_portfolio (Collaborators := C) w
         (with_codes (with_alpha o 0.01) rm obj)) /\
  display_mean_risk (C := C) w (with_alpha o 0.05)
  = display_mean_risk (C := C) w (with_alpha o 0.01) /\
  printed_lines (display_mean_risk (C := C) w (with_alpha o 0.01))
  = ["Annual (by 252) expected return: 210.00%";
     "Annual (by √252) volatility: 4.58%";
     "Sharpe ratio: 45.8377";
     "Annual (by √252) conditional value at risk (CVaR) : 3.70%";
     "Return / conditional value at risk (CVaR) ratio: 56.6947"].
Proof.
  intros C w o.
  assert (H : forall rm obj : string,
             dict_get risk_choices (mr_risk_measure o) = Some rm ->
             dict_get objectives_choices (mr_objective o) = Some obj ->
             get_mean_risk_portfolio (Collaborators := C) w
               (with_codes (with_alpha o 0.05) rm obj)
             = get_mean_risk_portfolio (Collaborators := C) w
                 (with_codes (with_alpha o 0.01) rm obj)).
  { intros rm obj [= <-] [= <-]. reflexivity. }
  split; [exact H |]. split.
  - exact (proj2 (@alpha_is_ignored C w o 0.05 0.01) H).
  - vm_compute. reflexivity.
Defined.

(** ** Numbers *)

Lemma Qlt_bool_iff (x y : Q) : Qlt_bool x y = true <-> (x < y)%Q.
Proof.
  unfold Qlt_bool. rewrite negb_true_iff. split.
  - intros H. apply Qnot_le_lt. intros Hle.
    apply Qle_bool_iff in Hle. congruence.
  - intros H. destruct (Qle_bool y x) eqn:E; [| reflexivity].
    apply Qle_bool_iff in E. exfalso. exact (Qlt_not_le _ _ H E).
Qed.

Lemma Qlt_bool_false (x y : Q) : (y <= x)%Q -> Qlt_bool x y = false.
Proof.
  intros H. unfold Qlt_bool. apply Qle_bool_iff in H. now rewrite H.
Qed.

(** ** [display_weights] *)

Section Weights.

Context {C : Collaborators}.


End Weights.


(** ** The pie chart *)

Lemma positive_slices_combine (items : list (string * Q)) :
  combine (fst (positive_slices items)) (snd (positive_slices items))
  = filter (fun kv => Qlt_bool 0 (snd kv)) items /\
  List.length (fst (positive_slices items))
  = List.length (snd (positive_slices items)).
Proof.
  induction items as [| [stock size] rest [IHc IHl]]; [now split |].
  simpl. destruct (positive_slices rest) as [stocks sizes]. simpl in *.
  destruct (Qlt_bool 0 size); simpl; split; congruence.
Qed.

Section PieChart.

Context {C : Collaborators}.

(** C4.  For a mapping that is not empty, the wedges are the assets of
    strictly positive weight, in order, and a wedge whose share of the
    plotted total is at most 4% carries no text. *)
Theorem pie_chart_keeps_positive_hides_small (weights : weights_t)
  (title_opt : string) :
  weights <> [] ->
  exists chart : pie,
    pie_chart_weights weights title_opt = Some chart /\
    combine (pie_labels chart) (pie_sizes chart)
    = filter (fun kv => Qlt_bool 0 (snd kv)) weights /\
    List.length (pie_labels chart) = List.length (pie_sizes chart) /\
    (forall (stock : string) (size : Q),
       In (stock, size) (combine (pie_labels chart) (pie_sizes chart)) <->
       In (stock, size) weights /\ (0 < size)%Q) /\
    (forall (i : nat) (size : Q),
       nth_error (pie_sizes chart) i = Some size ->
       (size / Qsum (pie_sizes chart) <= 4 # 100)%Q ->
       nth_error (pie_autotexts chart) i = Some EmptyString).
Proof.
  intros Hne. destruct weights as [| kv rest]; [contradiction |].
  unfold pie_chart_weights.
  destruct (positive_slices_combine (kv :: rest)) as [Hc Hl].
  destruct (positive_slices (kv :: rest)) as [stocks sizes].
  cbn [fst snd] in Hc, Hl.
  eexists. split; [reflexivity |]. cbn [pie_labels pie_sizes pie_autotexts].
  split; [exact Hc |]. split; [exact Hl |]. split.
  - intros stock size. rewrite Hc, filter_In. cbn [snd].
    now rewrite Qlt_bool_iff.
  - intros i size Hi Hshare.
    destruct (isclose (float_sum sizes) 1 0.1).
    + rewrite nth_error_map, Hi. cbn [option_map]. f_equal.
      unfold my_autopct. rewrite Qlt_bool_false; [reflexivity |].
      setoid_replace (4 : Q) with (100 * (4 # 100))%Q by reflexivity.
      apply Qmult_le_l; [reflexivity | exact Hshare].
    + rewrite nth_error_map, Hi. cbn [option_map]. f_equal.
      rewrite Qlt_bool_false; [reflexivity |].
      apply Qle_trans with (4 # 100)%Q; [exact Hshare |].
      apply Qle_bool_iff. reflexivity.
Qed.

End PieChart.

Lemma pie_chart_keeps_positive_hides_small_witness :
  let weights := [("A", 0.5); ("B", 0.03); ("C", -0.1); ("D", 0.47)]%Q in
  weights <> [] /\
  exists chart : pie,
    pie_chart_weights (C := Sample.world) weights "Weights" = Some chart /\
    pie_labels chart = ["A"; "B"; "D"] /\
    nth_error (pie_autotexts chart) 1 = Some EmptyString.
Proof.
  intros weights.
  assert (Hne : weights <> []) by discriminate.
  split; [exact Hne |].
  destruct (@pie_chart_keeps_positive_hides_small Sample.world weights
              "Weights" Hne) as (chart & Hrun & _ & _ & _ & Hsmall).
  exists chart. split; [exact Hrun |].
  injection Hrun as <-. split; [reflexivity |].
  apply (Hsmall 1%nat 0.03%Q); [reflexivity |].
  apply Qle_bool_iff. reflexivity.
Defined.

(** ** The performance report *)

(** Lower-casing a short code gives back a key of [risk_names]: the second
    lookup of [portfolio_performance] cannot fail on a code taken from
    [risk_choices]. *)
Lemma risk_name_of_code (k code : string) :
  dict_get risk_choices k = Some code ->
  exists name, dict_get risk_names (Str.lower code) = Some name.
Proof.
  intros H. apply dict_get_In in H. unfold risk_choices in H.
  repeat (destruct H as [[= <- <-] | H]; [eexists; vm_compute; reflexivity |]).
  destruct H.
Qed.

Section Performance.

Context {C : Collaborators}.

(** The report of [portfolio_performance] starts with the annualized return,
    the annualized volatility and their ratio; lines on the risk measure
    follow for a measure other than "MV". *)
Lemma performance_report (weights : weights_t) (stock_returns : frame)
  (freq k code : string) (tf : Z) (risk_free_rate alpha a_sim : Q)
  (beta b_sim : option Q) :
  dict_get time_factor (Str.upper freq) = Some tf ->
  dict_get risk_choices k = Some code ->
  let returns := matmul stock_returns weights in
  let mu := (mean_item returns * inject_Z tf)%Q in
  let sigma := (std_item returns * pow_half (inject_Z tf))%Q in
  let risk :=
    Sharpe_Risk weights (cov stock_returns) stock_returns code risk_free_rate
      alpha a_sim beta b_sim in
  ~ (sigma == 0)%Q ->
  (code <> "MV" ->
   ~ ((if str_in code drawdowns then risk
       else risk * pow_half (inject_Z tf)) == 0)%Q) ->
  exists extra : list event,
    portfolio_performance weights stock_returns freq code risk_free_rate
      alpha a_sim beta b_sim
    = ([PrintLine ("Annual (by " ++ (Str.of_Z tf ++ ") ") ++ "expected return: "
                   ++ fmt 2 (100 * mu) ++ "%");
        PrintLine ("Annual (by " ++ ("√" ++ (Str.of_Z tf ++ ") "))
                   ++ "volatility: " ++ fmt 2 (100 * sigma) ++ "%");
        PrintLine ("Sharpe ratio: " ++ fmt 4 ((mu - risk_free_rate) / sigma))]
       ++ extra, Returned tt)%list /\
    (code = "MV" -> extra = []).
Proof.
  intros Htf Hcode returns mu sigma risk Hsigma Hrisk.
  destruct (risk_name_of_code k code Hcode) as [name Hname].
  unfold portfolio_performance.
  rewrite (getitem_Some _ _ _ Htf), bind_ret.
  fold returns. fold mu. fold sigma.
  rewrite (fdiv_nonzero _ _ Hsigma), bind_ret.
  rewrite !bind_emit. cbn [trace result fst snd].
  destruct (String.eqb_spec code "MV") as [-> | Hne]; cbn [negb].
  - exists []. split; reflexivity.
  - specialize (Hrisk Hne). fold risk. fold risk in Hrisk.
    destruct (str_in code drawdowns).
    + rewrite (fdiv_nonzero _ _ Hrisk), bind_ret.
      rewrite (getitem_Some _ _ _ Hname), !bind_ret.
      eexists. split; [reflexivity | contradiction].
    + rewrite (fdiv_nonzero _ _ Hrisk), bind_ret.
      rewrite (getitem_Some _ _ _ Hname), !bind_ret.
      eexists. split; [reflexivity | contradiction].
Qed.

(** C7.  An equal-weight request over four tickers, once the period is
    formatted, for a known frequency and risk measure and a series whose
    volatility is not zero: every ticker gets a quarter (shown as a
    percentage), the report prints the mean return times the time factor,
    the standard deviation times the square root of the time factor and the
    ratio of the excess return to that volatility, and the mapping is
    returned. *)
Theorem equal_weight_of_four_tickers (w : window)
  (t1 t2 t3 t4 p risk_measure code : string) (tf : Z)
  (risk_free_rate alpha : Q) :
  stocks w = [t1; t2; t3; t4] ->
  result (d_period (period w) (start w) (end_ w)) = Returned p ->
  dict_get time_factor (Str.upper (freq w)) = Some tf ->
  dict_get risk_choices risk_measure = Some code ->
  let weights := [(t1, 1 # 4); (t2, 1 # 4); (t3, 1 # 4); (t4, 1 # 4)]%Q in
  let returns := matmul (returns_provider w) weights in
  let mu := (mean_item returns * inject_Z tf)%Q in
  let sigma := (std_item returns * pow_half (inject_Z tf))%Q in
  let risk :=
    Sharpe_Risk weights (cov (returns_provider w)) (returns_provider w) code
      risk_free_rate 0.05 100 None None in
  ~ (sigma == 0)%Q ->
  (code <> "MV" ->
   ~ ((if str_in code drawdowns then risk
       else risk * pow_half (inject_Z tf)) == 0)%Q) ->
  exists extra : list event,
    display_equal_weight w risk_measure risk_free_rate alpha 1
    = ([Consult "get_equal_weights" (Some weights);
        ConsolePrint [nl; (p ++ " Equally Weighted Portfolio" ++ nl)%string];
        RichTable
          (List.map
             (fun kv =>
                (fst kv, CStr (clip (str_float (snd kv * 100)) ++ " %")%string))
             weights)
          ["Value"] "Weights";
        PrintLine ("Annual (by " ++ (Str.of_Z tf ++ ") ") ++ "expected return: "
                   ++ fmt 2 (100 * mu) ++ "%");
        PrintLine ("Annual (by " ++ ("√" ++ (Str.of_Z tf ++ ") "))
                   ++ "volatility: " ++ fmt 2 (100 * sigma) ++ "%");
        PrintLine ("Sharpe ratio: " ++ fmt 4 ((mu - risk_free_rate) / sigma))]
       ++ extra ++ [ConsolePrint [EmptyString]],
       Returned (Some weights))%list /\
    (code = "MV" -> extra = []).
Proof.
  intros Hstocks Hp Htf Hcode weights returns mu sigma risk Hsigma Hrisk.
  destruct (performance_report weights (returns_provider w) (freq w)
              risk_measure code tf risk_free_rate 0.05 100 None None
              Htf Hcode Hsigma Hrisk) as (extra & Hperf & Hmv).
  exists extra. split; [| exact Hmv].
  unfold display_equal_weight.
  rewrite bind_quiet by auto with consult. rewrite Hp.
  rewrite consult_builder_run, bind_returned.
  unfold get_equal_weights. rewrite Hstocks.
  change (List.map _ [t1; t2; t3; t4]) with weights. cbn [fst snd].
  rewrite bind_emit.
  assert (Hshow : display_weights weights false
                  = ([RichTable
                        (List.map
                           (fun kv =>
                              (fst kv,
                               CStr (clip (str_float (snd kv * 100)) ++ " %")))
                           weights)
                        ["Value"] "Weights"], Returned tt)) by reflexivity.
  rewrite Hshow, bind_returned.
  rewrite (getitem_Some _ _ _ Hcode), bind_ret.
  rewrite Hperf, bind_returned, bind_emit.
  unfold trace, result, ret. cbn [fst snd app]. reflexivity.
Qed.

End Performance.

Lemma equal_weight_of_four_tickers_witness :
  let w := Sample.window_3y in
  let weights := [("AAPL", 1 # 4); ("MSFT", 1 # 4); ("AMZN", 1 # 4);
                  ("TSLA", 1 # 4)]%Q in
  stocks w = ["AAPL"; "MSFT"; "AMZN"; "TSLA"] /\
  dict_get time_factor (Str.upper (freq w)) = Some 252%Z /\
  dict_get risk_choices "mv" = Some "MV" /\
  result (display_equal_weight (C := Sample.world) w "mv" 0 0.05 1)
  = Returned (Some weights) /\
  filter (fun e => match e with PrintLine _ => true | _ => false end)
    (trace (display_equal_weight (C := Sample.world) w "mv" 0 0.05 1))
  = [PrintLine "Annual (by 252) expected return: 210.00%";
     PrintLine "Annual (by √252) volatility: 4.58%";
     PrintLine "Sharpe ratio: 45.8377"].
Proof.
  intros w weights.
  assert (Hp : result (d_period (C := Sample.world) (period w) (start w) (end_ w))
               = Returned "[3 Years]") by reflexivity.
  assert (Hsigma :
            ~ (std_item (Collaborators := Sample.world)
                 (matmul (Collaborators := Sample.world)
                    (returns_provider (Collaborators := Sample.world) w) weights)
               * pow_half (Collaborators := Sample.world) (inject_Z 252) == 0)%Q).
  { intros H. apply Qeq_bool_iff in H. vm_compute in H. discriminate. }
  destruct (@equal_weight_of_four_tickers Sample.world w
              "AAPL" "MSFT" "AMZN" "TSLA" "[3 Years]" "mv" "MV" 252 0 0.05
              eq_refl Hp eq_refl eq_refl Hsigma)
    as (extra & Hrun & Hmv).
  { intros H. now contradiction H. }
  rewrite (Hmv eq_refl) in Hrun.
  repeat (split; [reflexivity |]).
  rewrite Hrun. split; vm_compute; reflexivity.
Defined.

(** * Further properties *)

(** ** The tables, read both ways *)

Lemma lower_code (k code : string) :
  dict_get risk_choices k = Some code -> Str.lower code = k.
Proof.
  intros H. apply dict_get_In in H. unfold risk_choices in H.
  repeat (destruct H as [[= <- <-] | H]; [vm_compute; reflexivity |]).
  destruct H.
Qed.

(** Lower-casing the short code of a risk measure gives back its key, so the
    name that [portfolio_performance] prints for a code is the name of the
    measure that was selected. *)
Theorem risk_code_lowercase_is_key (k code : string) :
  dict_get risk_choices k = Some code ->
  Str.lower code = k /\
  dict_get risk_names (Str.lower code) = dict_get risk_names k.
Proof.
  intros H. pose proof (lower_code k code H) as E.
  split; [exact E | now rewrite E].
Qed.

Lemma risk_code_lowercase_is_key_witness :
  dict_get risk_choices "cdar_rel" = Some "CDaR_Rel" /\
  Str.lower "CDaR_Rel" = "cdar_rel".
Proof.
  assert (H : dict_get risk_choices "cdar_rel" = Some "CDaR_Rel") by reflexivity.
  split; [exact H |].
  exact (proj1 (risk_code_lowercase_is_key "cdar_rel" "CDaR_Rel" H)).
Defined.

(** No short code is itself a key, in either risk table or in the table of
    objectives: a name that was already translated cannot be translated
    again. *)
Lemma codes_are_not_keys :
  (forall k code, dict_get risk_choices k = Some code ->
     dict_get risk_choices code = None /\ dict_get risk_names code = None) /\
  (forall k code, dict_get objectives_choices k = Some code ->
     dict_get objectives_choices code = None).
Proof.
  split; intros k code H; apply dict_get_In in H.
  - unfold risk_choices in H.
    repeat (destruct H as [[= <- <-] | H]; [split; vm_compute; reflexivity |]).
    destruct H.
  - unfold objectives_choices in H.
    repeat (destruct H as [[= <- <-] | H]; [vm_compute; reflexivity |]).
    destruct H.
Qed.

(** ** The front ends and their defaults *)

Section FrontEnds.

Context {C : Collaborators}.

Lemma mean_risk_on_a_code (w : window) (o : mean_risk_opts)
  (p k code : string) :
  result (d_period (period w) (start w) (end_ w)) = Returned p ->
  dict_get risk_choices k = Some code ->
  mr_risk_measure o = code ->
  In (mr_objective o) ["minrisk"; "sharpe"; "utility"; "maxret"] ->
  display_mean_risk w o = ([], Raised (KeyError code)).
Proof.
  intros Hp Hk Hrm Hobj.
  destruct (mean_risk_title (mr_objective o) p Hobj) as (title & Htitle & _).
  destruct (proj1 codes_are_not_keys k code Hk) as [_ Hname].
  unfold display_mean_risk.
  rewrite bind_quiet by auto with consult. rewrite Hp, Htitle.
  cbn [load_local]. rewrite bind_ret, Hrm.
  now rewrite (getitem_None _ _ Hname).
Qed.

(** [display_max_sharpe], [display_min_risk], [display_max_util] and
    [display_max_ret] declare the short code "MV" as the default of
    [risk_measure], while the tables are keyed by "mv": called with a short
    code, and so with their default, each of them fails on the first lookup,
    before the optimizer is consulted. *)
Theorem mean_risk_front_ends_reject_codes (w : window) (o : mean_risk_opts)
  (p k code : string) :
  result (d_period (period w) (start w) (end_ w)) = Returned p ->
  dict_get risk_choices k = Some code ->
  mr_risk_measure o = code ->
  display_max_sharpe w o = ([], Raised (KeyError code)) /\
  display_min_risk w o = ([], Raised (KeyError code)) /\
  display_max_util w o = ([], Raised (KeyError code)) /\
  display_max_ret w o = ([], Raised (KeyError code)).
Proof.
  intros Hp Hk Hrm.
  unfold display_max_sharpe, display_min_risk, display_max_util,
    display_max_ret.
  repeat apply conj;
    apply (mean_risk_on_a_code w _ p k code Hp Hk); try exact Hrm;
    cbn [with_objective mr_objective In]; tauto.
Qed.

(** [display_nco] declares the code "MinRisk" as the default of [objective],
    while [objectives_choices] is keyed by "minrisk": called with a code of
    the table as objective, it fails on the lookup of the objective, before
    the optimizer is consulted. *)
Theorem nco_rejects_objective_codes (w : window) (o : hcp_opts)
  (p k code : string) :
  result (d_period (period w) (start w) (end_ w)) = Returned p ->
  dict_get objectives_choices k = Some code ->
  hc_objective o = code ->
  In (hc_risk_measure o) (keys risk_choices) ->
  display_nco w o = ([], Raised (KeyError code)).
Proof.
  intros Hp Hk Hobj Hrm.
  pose proof (proj2 codes_are_not_keys k code Hk) as Hnone.
  apply dict_get_keys in Hrm. destruct Hrm as [rm Hrm].
  destruct (risk_names_Some _ _ Hrm) as [name Hname].
  unfold display_nco, display_hcp.
  rewrite bind_quiet by auto with consult. rewrite Hp.
  cbn [hc_for_nco hc_model hc_risk_measure hc_objective String.eqb Ascii.eqb
         Bool.eqb load_local].
  rewrite bind_ret.
  rewrite (getitem_Some _ _ _ Hname), bind_ret.
  rewrite Hobj. now rewrite (getitem_None _ _ Hnone).
Qed.

End FrontEnds.

Lemma mean_risk_front_ends_reject_codes_witness :
  let o := mkMeanRisk "MV" "sharpe" 0 1 0.05 (-1) (-1) "hist" "hist" 0.94 1 0 in
  result (d_period (C := Sample.world) "3y" EmptyString EmptyString)
  = Returned "[3 Years]" /\
  dict_get risk_choices "mv" = Some "MV" /\
  display_max_sharpe (C := Sample.world) Sample.window_3y o
  = ([], Raised (KeyError "MV")).
Proof.
  intros o.
  assert (Hp : result (d_period (C := Sample.world)
                         (period Sample.window_3y) (start Sample.window_3y)
                         (end_ Sample.window_3y)) = Returned "[3 Years]")
    by reflexivity.
  assert (Hk : dict_get risk_choices "mv" = Some "MV") by reflexivity.
  split; [exact Hp |]. split; [exact Hk |].
  exact (proj1 (@mean_risk_front_ends_reject_codes Sample.world
                  Sample.window_3y o _ "mv" "MV" Hp Hk eq_refl)).
Defined.

Lemma nco_rejects_objective_codes_witness :
  let o := mkHcp "NCO" "pearson" "hist" "MinRisk" "mv" 0 2 0.05 100 None None
             "ward" 0 10 "KN" 0.05 true 0.94 1 in
  dict_get objectives_choices "minrisk" = Some "MinRisk" /\
  display_nco (C := Sample.world) Sample.window_3y o
  = ([], Raised (KeyError "MinRisk")).
Proof.
  intros o.
  assert (Hp : result (d_period (C := Sample.world)
                         (period Sample.window_3y) (start Sample.window_3y)
                         (end_ Sample.window_3y)) = Returned "[3 Years]")
    by reflexivity.
  assert (Hk : dict_get objectives_choices "minrisk" = Some "MinRisk")
    by reflexivity.
  split; [exact Hk |].
  apply (@nco_rejects_objective_codes Sample.world Sample.window_3y o _
           "minrisk" "MinRisk" Hp Hk eq_refl).
  vm_compute. tauto.
Defined.

(** ** One consultation, first, and its answer returned *)




Section Consultation.

Context {C : Collaborators}.

#[local] Hint Resolve no_consult_display_weights
  no_consult_portfolio_performance : consult.











End Consultation.

(** ** Percentages or amounts *)

(** Every pair of weights in hundredths, from 0.00 to 1.20 each, put
    through the test of [display_weights]. *)
Lemma hundredths_spec :
  hundredths
  = List.map (fun k => (k, Binary64.of_Q (k # 100)))
      (List.map Z.of_nat (seq 0 121)).
Proof. vm_compute. reflexivity. Qed.

Lemma hundredths_table :
  forallb
    (fun id : Z * Binary64.double =>
       forallb
         (fun jd : Z * Binary64.double =>
            Bool.eqb
              (Binary64.math_isclose
                 (Binary64.add (Binary64.add Binary64.zero (snd id)) (snd jd))
                 (Binary64.of_Q 1) (Binary64.of_Q 0.1))
              (hundredths_as_percent (fst id) (fst jd)))
         hundredths)
    hundredths = true.
Proof. vm_compute. reflexivity. Qed.

Lemma hundredths_test (i j : Z) :
  (0 <= i <= 120)%Z -> (0 <= j <= 120)%Z ->
  isclose (float_sum [i # 100; j # 100]) 1 0.1 = hundredths_as_percent i j.
Proof.
  intros Hi Hj.
  assert (Hin : forall k : Z,
             (0 <= k <= 120)%Z -> In (k, Binary64.of_Q (k # 100)) hundredths).
  { intros k Hk. rewrite hundredths_spec.
    apply (in_map (fun k => (k, Binary64.of_Q (k # 100)))).
    apply in_map_iff. exists (Z.to_nat k).
    split; [lia |]. apply in_seq. lia. }
  pose proof hundredths_table as H.
  rewrite forallb_forall in H. specialize (H _ (Hin i Hi)).
  rewrite forallb_forall in H. specialize (H _ (Hin j Hj)).
  apply eqb_prop in H. exact H.
Qed.

Section Percentages.

Context {C : Collaborators}.

(** The test of [display_weights] is made on the sum as the machine rounds
    it.  Two weights given in hundredths, between 0.00 and 1.20 each, are
    shown as percentages exactly when they add up to between 0.90 and 1.11,
    except for the pairs that add up to 0.90 on paper and just below it in
    binary64, such as 0.30 and 0.60, which are shown as amounts.  Three
    weights of 0.1, 0.2 and 0.6 add up to the double just above 0.9 and are
    shown as percentages. *)
Theorem display_weights_rounds_the_sum :
  (forall (a b : string) (i j : Z),
     (0 <= i <= 120)%Z -> (0 <= j <= 120)%Z ->
     display_weights [(a, i # 100); (b, j # 100)] false
     = if hundredths_as_percent i j then
         ([RichTable
             [(a, CStr (clip (str_float ((i # 100) * 100)) ++ " %"));
              (b, CStr (clip (str_float ((j # 100) * 100)) ++ " %"))]
             ["Value"] "Weights"], Returned tt)
       else
         ([RichTable
             [(a, CStr (clip (str_float (i # 100)) ++ " $"));
              (b, CStr (clip (str_float (j # 100)) ++ " $"))]
             ["Value"] "Weights"], Returned tt)) /\
  hundredths_as_percent 30 60 = false /\
  hundredths_as_percent 45 45 = true /\
  hundredths_as_percent 55 56 = true /\
  hundredths_as_percent 56 56 = false /\
  display_weights [("A", 0.1); ("B", 0.2); ("C", 0.6)]%Q false
  = ([RichTable [("A", CStr (clip (str_float (0.1 * 100)) ++ " %"));
                 ("B", CStr (clip (str_float (0.2 * 100)) ++ " %"));
                 ("C", CStr (clip (str_float (0.6 * 100)) ++ " %"))]
        ["Value"] "Weights"], Returned tt).
Proof.
  split; [| do 4 (split; [reflexivity |])].
  - intros a b i j Hi Hj. unfold display_weights.
    cbn [negb values List.map fst snd].
    rewrite (hundredths_test i j Hi Hj).
    now destruct (hundredths_as_percent i j).
  - assert (E : isclose (float_sum [0.1; 0.2; 0.6]%Q) 1 0.1 = true)
      by (vm_compute; reflexivity).
    unfold display_weights. cbn [negb values List.map fst snd].
    now rewrite E.
Qed.

End Percentages.

(** ** Periods counted in days, weeks, months and years *)

Lemma last_app (s t : string) :
  t <> EmptyString -> Str.last (s ++ t) = Str.last t.
Proof.
  intros Ht. induction s as [| a s IH]; [reflexivity |].
  cbn [append Str.last]. rewrite IH.
  destruct (s ++ t) eqn:E; [| reflexivity].
  destruct s; cbn in E; [contradiction | discriminate].
Qed.

Lemma substring_prefix (s t : string) :
  substring 0 (String.length s) (s ++ t) = s.
Proof.
  induction s as [| a s IH]; cbn.
  - now destruct t.
  - now rewrite IH.
Qed.

Lemma length_app (s t : string) :
  String.length (s ++ t) = (String.length s + String.length t)%nat.
Proof. induction s as [| a s IH]; cbn; [reflexivity | now rewrite IH]. Qed.

Lemma drop_last_app (s t : string) :
  Str.drop_last (String.length t) (s ++ t) = s.
Proof.
  unfold Str.drop_last. rewrite length_app, Nat.add_sub.
  apply substring_prefix.
Qed.

Lemma digits_not_extra (n u : string) :
  n <> EmptyString -> all_digits n = true ->
  dict_mem extra_choices (n ++ u) = false.
Proof.
  intros Hne Hd. destruct n as [| c n]; [contradiction |].
  cbn [all_digits] in Hd. apply andb_prop in Hd. destruct Hd as [Hc _].
  apply dict_mem_extra_choices; cbn [append]; intros [= -> _];
    vm_compute in Hc; discriminate.
Qed.

(** Only the count "1" makes the text start with a one and a blank. *)
Lemma starts_with_one (n rest : string) :
  n <> EmptyString -> all_digits n = true ->
  (Str.slice 1 3 ("[" ++ n ++ String " " rest) =? "1 ") = (n =? "1").
Proof.
  intros Hne Hd. destruct n as [| c n]; [contradiction |].
  cbn [all_digits] in Hd. apply andb_prop in Hd. destruct Hd as [_ Hd].
  destruct n as [| c2 n].
  - destruct rest; cbn; destruct (Ascii.eqb c "1"); reflexivity.
  - cbn [all_digits] in Hd. apply andb_prop in Hd. destruct Hd as [Hc2 _].
    cbn. destruct (Ascii.eqb c "1"); [| reflexivity].
    destruct (Ascii.eqb_spec c2 " ") as [-> | _]; [| reflexivity].
    vm_compute in Hc2. discriminate.
Qed.

Section Counts.

Context {C : Collaborators}.

(** With no start date, a count followed by d, w, mo or y is spelled out in
    days, weeks, months or years, and the count 1 takes the singular. *)
Theorem d_period_spells_counts (n end_ : string) :
  n <> EmptyString -> all_digits n = true ->
  d_period (n ++ "d") EmptyString end_
  = ret (if n =? "1" then "[1 Day]" else "[" ++ n ++ " Days]") /\
  d_period (n ++ "w") EmptyString end_
  = ret (if n =? "1" then "[1 Week]" else "[" ++ n ++ " Weeks]") /\
  d_period (n ++ "mo") EmptyString end_
  = ret (if n =? "1" then "[1 Month]" else "[" ++ n ++ " Months]") /\
  d_period (n ++ "y") EmptyString end_
  = ret (if n =? "1" then "[1 Year]" else "[" ++ n ++ " Years]").
Proof.
  intros Hne Hd.
  assert (Hlast : forall u c, Str.last u = Some c ->
                    last_char (n ++ u) = ret c).
  { intros u c Hu. unfold last_char. rewrite last_app, Hu; [reflexivity |].
    intros ->. discriminate. }
  assert (Hstep : forall u c,
            Str.last u = Some c ->
            d_period (n ++ u) EmptyString end_
            = bind (bind (if Ascii.eqb c "d" then
                            ret (Some ("[" ++ Str.drop_last 1 (n ++ u) ++ " Days]"))
                          else if Ascii.eqb c "w" then
                            ret (Some ("[" ++ Str.drop_last 1 (n ++ u) ++ " Weeks]"))
                          else if Ascii.eqb c "o" then
                            ret (Some ("[" ++ Str.drop_last 2 (n ++ u) ++ " Months]"))
                          else if Ascii.eqb c "y" then
                            ret (Some ("[" ++ Str.drop_last 1 (n ++ u) ++ " Years]"))
                          else ret None)
                      (fun p => ret p))
                (fun p =>
                   p <- load_local "p" p ;;
                   if Str.slice 1 3 p =? "1 " then ret (Str.remove "s" p)
                   else ret p)).
  { intros u c Hu. unfold d_period. cbn [String.eqb].
    rewrite (digits_not_extra n u Hne Hd), (Hlast u c Hu), bind_ret.
    now repeat (destruct (Ascii.eqb c _)). }
  repeat apply conj.
  - rewrite (Hstep "d" "d"%char eq_refl). cbn [Ascii.eqb Bool.eqb].
    rewrite (drop_last_app n "d" : Str.drop_last 1 (n ++ "d") = n), !bind_ret. cbn [load_local].
    rewrite bind_ret, (starts_with_one n _ Hne Hd).
    destruct (String.eqb_spec n "1") as [-> | _]; reflexivity.
  - rewrite (Hstep "w" "w"%char eq_refl). cbn [Ascii.eqb Bool.eqb].
    rewrite (drop_last_app n "w" : Str.drop_last 1 (n ++ "w") = n), !bind_ret. cbn [load_local].
    rewrite bind_ret, (starts_with_one n _ Hne Hd).
    destruct (String.eqb_spec n "1") as [-> | _]; reflexivity.
  - rewrite (Hstep "mo" "o"%char eq_refl). cbn [Ascii.eqb Bool.eqb].
    rewrite (drop_last_app n "mo" : Str.drop_last 2 (n ++ "mo") = n), !bind_ret. cbn [load_local].
    rewrite bind_ret, (starts_with_one n _ Hne Hd).
    destruct (String.eqb_spec n "1") as [-> | _]; reflexivity.
  - rewrite (Hstep "y" "y"%char eq_refl). cbn [Ascii.eqb Bool.eqb].
    rewrite (drop_last_app n "y" : Str.drop_last 1 (n ++ "y") = n), !bind_ret. cbn [load_local].
    rewrite bind_ret, (starts_with_one n _ Hne Hd).
    destruct (String.eqb_spec n "1") as [-> | _]; reflexivity.
Qed.

End Counts.

Lemma d_period_spells_counts_witness :
  "18" <> EmptyString /\ all_digits "18" = true /\
  d_period (C := Sample.world) "18mo" EmptyString EmptyString
  = ret "[18 Months]".
Proof.
  assert (Hne : "18" <> EmptyString) by discriminate.
  split; [exact Hne |]. split; [reflexivity |].
  exact (proj1 (proj2 (proj2 (@d_period_spells_counts Sample.world "18"
                                EmptyString Hne eq_refl)))).
Defined.

(** With no start date, neither the end date nor the clock is read; with
    both dates given, neither the period nor the clock is. *)
Theorem d_period_ignores (C1 C2 : Collaborators)
  (period1 period2 start end1 end2 : string) :
  d_period (C := C1) period1 EmptyString end1
  = d_period (C := C2) period1 EmptyString end2 /\
  (start <> EmptyString -> end1 <> EmptyString ->
   d_period (C := C1) period1 start end1
   = ret ("[From " ++ start ++ " to " ++ end1 ++ "]") /\
   d_period (C := C2) period2 start end1
   = ret ("[From " ++ start ++ " to " ++ end1 ++ "]")).
Proof.
  split.
  - unfold d_period. cbn [String.eqb]. reflexivity.
  - intros Hs He. apply String.eqb_neq in Hs, He.
    unfold d_period. rewrite Hs, He. split; reflexivity.
Qed.

(** ** The report: failures, case and lines *)

Lemma upper_upper (s : string) : Str.upper (Str.upper s) = Str.upper s.
Proof.
  induction s as [| a s IH]; [reflexivity |].
  unfold Str.upper in *. cbn [Str.map]. rewrite IH. f_equal.
  destruct a as [[] [] [] [] [] [] [] []]; reflexivity.
Qed.

Lemma upper_lower (s : string) : Str.upper (Str.lower s) = Str.upper s.
Proof.
  induction s as [| a s IH]; [reflexivity |].
  unfold Str.upper, Str.lower in *. cbn [Str.map]. rewrite IH. f_equal.
  destruct a as [[] [] [] [] [] [] [] []]; reflexivity.
Qed.

Section Report.

Context {C : Collaborators}.

(** [portfolio_performance] prints nothing when it fails on its inputs: a
    frequency that is not D, W or M in any case is a [KeyError] on its
    upper-case form, and a series of zero volatility is a division by
    zero. *)
Theorem performance_fails_before_printing (weights : weights_t)
  (stock_returns : frame) (freq code : string)
  (risk_free_rate alpha a_sim : Q) (beta b_sim : option Q) :
  (~ In (Str.upper freq) ["D"; "W"; "M"] ->
   portfolio_performance weights stock_returns freq code risk_free_rate
     alpha a_sim beta b_sim
   = ([], Raised (KeyError (Str.upper freq)))) /\
  (forall tf : Z,
     dict_get time_factor (Str.upper freq) = Some tf ->
     (std_item (matmul stock_returns weights) * pow_half (inject_Z tf) == 0)%Q ->
     portfolio_performance weights stock_returns freq code risk_free_rate
       alpha a_sim beta b_sim
     = ([], Raised ZeroDivisionError)).
Proof.
  split.
  - intros Hfreq.
    assert (H : dict_get time_factor (Str.upper freq) = None)
      by (apply dict_get_None; exact Hfreq).
    unfold portfolio_performance. now rewrite (getitem_None _ _ H).
  - intros tf Htf Hzero. unfold portfolio_performance.
    rewrite (getitem_Some _ _ _ Htf), bind_ret.
    now rewrite (fdiv_zero _ _ Hzero).
Qed.

(** The frequency is read without regard to case. *)
Theorem performance_frequency_case (weights : weights_t)
  (stock_returns : frame) (freq code : string)
  (risk_free_rate alpha a_sim : Q) (beta b_sim : option Q) :
  portfolio_performance weights stock_returns (Str.upper freq) code
    risk_free_rate alpha a_sim beta b_sim
  = portfolio_performance weights stock_returns freq code risk_free_rate
      alpha a_sim beta b_sim /\
  portfolio_performance weights stock_returns (Str.lower freq) code
    risk_free_rate alpha a_sim beta b_sim
  = portfolio_performance weights stock_returns freq code risk_free_rate
      alpha a_sim beta b_sim.
Proof.
  unfold portfolio_performance. rewrite upper_upper, upper_lower.
  split; reflexivity.
Qed.

(** For a risk measure other than the variance, the report has five lines.
    The fourth names the measure by the name of the key that was selected and
    gives its value: as it is for a drawdown measure, times the square root
    of the time factor for the others.  The fifth is the ratio of the excess
    return to that value. *)
Theorem performance_lines (weights : weights_t) (stock_returns : frame)
  (freq k code name : string) (tf : Z) (risk_free_rate alpha a_sim : Q)
  (beta b_sim : option Q) :
  dict_get time_factor (Str.upper freq) = Some tf ->
  dict_get risk_choices k = Some code ->
  dict_get risk_names k = Some name ->
  code <> "MV" ->
  let returns := matmul stock_returns weights in
  let mu := (mean_item returns * inject_Z tf)%Q in
  let sigma := (std_item returns * pow_half (inject_Z tf))%Q in
  let risk :=
    Sharpe_Risk weights (cov stock_returns) stock_returns code risk_free_rate
      alpha a_sim beta b_sim in
  let shown :=
    if str_in code drawdowns then risk
    else (risk * pow_half (inject_Z tf))%Q in
  let by_root := "Annual (by " ++ ("√" ++ (Str.of_Z tf ++ ") ")) in
  ~ (sigma == 0)%Q ->
  ~ (shown == 0)%Q ->
  portfolio_performance weights stock_returns freq code risk_free_rate
    alpha a_sim beta b_sim
  = (List.map PrintLine
       [ "Annual (by " ++ (Str.of_Z tf ++ ") ") ++ "expected return: "
         ++ fmt 2 (100 * mu) ++ "%";
         by_root ++ "volatility: " ++ fmt 2 (100 * sigma) ++ "%";
         "Sharpe ratio: " ++ fmt 4 ((mu - risk_free_rate) / sigma);
         (if str_in code drawdowns then
            Str.capitalize name ++ " : " ++ fmt 2 (100 * shown) ++ "%"
          else
            "Annual (by " ++ ("√" ++ (Str.of_Z tf ++ ") ")) ++ name
            ++ " : " ++ fmt 2 (100 * shown) ++ "%");
         "Return / " ++ name ++ " ratio: "
         ++ fmt 4 ((mu - risk_free_rate) / shown) ],
     Returned tt).
Proof.
  intros Htf Hcode Hname Hne returns mu sigma risk shown by_root Hsigma Hshown.
  assert (Hlow : dict_get risk_names (Str.lower code) = Some name)
    by (now rewrite (lower_code k code Hcode)).
  apply String.eqb_neq in Hne.
  unfold portfolio_performance.
  rewrite (getitem_Some _ _ _ Htf), bind_ret.
  fold returns. fold mu. fold sigma.
  rewrite (fdiv_nonzero _ _ Hsigma), bind_ret.
  rewrite !bind_emit. rewrite Hne. cbn [negb trace result fst snd].
  fold risk. subst shown.
  destruct (str_in code drawdowns).
  - rewrite (fdiv_nonzero _ _ Hshown), bind_ret.
    rewrite (getitem_Some _ _ _ Hlow), !bind_ret.
    reflexivity.
  - rewrite (fdiv_nonzero _ _ Hshown), bind_ret.
    rewrite (getitem_Some _ _ _ Hlow), !bind_ret.
    reflexivity.
Qed.

End Report.

Lemma performance_lines_witness :
  let weights := Sample.equal_split Sample.window_3y 1 in
  let returns := Sample.returns_provider Sample.window_3y in
  dict_get risk_choices "cdar" = Some "CDaR" /\
  printed_lines
    (portfolio_performance (C := Sample.world) weights returns "d" "CDaR"
       0 0.05 100 None None)
  = ["Annual (by 252) expected return: 210.00%";
     "Annual (by √252) volatility: 4.58%";
     "Sharpe ratio: 45.8377";
     "Conditional drawdown at risk (cdar) uncompounded : 0.22%";
     "Return / conditional drawdown at risk (CDaR) uncompounded ratio: 945.0000"].
Proof.
  intros weights returns.
  assert (Hcode : dict_get risk_choices "cdar" = Some "CDaR") by reflexivity.
  split; [exact Hcode |].
  rewrite (@performance_lines Sample.world weights returns "d" "cdar" "CDaR"
             "conditional drawdown at risk (CDaR) uncompounded" 252
             0 0.05 100 None None eq_refl Hcode eq_refl).
  - vm_compute. reflexivity.
  - discriminate.
  - intros H. apply Qeq_bool_iff in H. vm_compute in H. discriminate.
  - intros H. apply Qeq_bool_iff in H. vm_compute in H. discriminate.
Defined.

(** ** The version of the relaxed risk parity model *)

Section Version.

Context {C : Collaborators}.

(** [display_rel_risk_parity] reads the version letter without regard to
    case: a request and the same request with the letter in upper case or in
    lower case run alike. *)
Theorem rel_risk_parity_version_case (w : window) (o : rel_risk_parity_opts) :
  display_rel_risk_parity w (rr_with_version o (Str.upper (rr_version o)))
  = display_rel_risk_parity w o /\
  display_rel_risk_parity w (rr_with_version o (Str.lower (rr_version o)))
  = display_rel_risk_parity w o.
Proof.
  unfold display_rel_risk_parity.
  cbn [rr_with_version rr_version rr_risk_cont rr_penal_factor rr_target_return
         rr_mean rr_covariance rr_d_ewma rr_value].
  rewrite upper_upper, upper_lower. split; reflexivity.
Qed.

End Version.

(** ** What is shown once the optimizer has answered *)

Lemma report_bind {A B : Type} (m : py A) (f : A -> py B) :
  Forall (fun e => is_report e = true) (trace m) ->
  (forall a, Forall (fun e => is_report e = true) (trace (f a))) ->
  Forall (fun e => is_report e = true) (trace (bind m f)).
Proof.
  intros Hm Hf. rewrite trace_bind. apply Forall_app. split; [exact Hm |].
  destruct (result m); [apply Hf | constructor].
Qed.

Lemma report_quiet {A : Type} (m : py A) :
  quiet m -> Forall (fun e => is_report e = true) (trace m).
Proof. unfold quiet. intros ->. constructor. Qed.

Lemma report_emit (e : event) :
  is_report e = true -> Forall (fun e => is_report e = true) (trace (emit e)).
Proof. intros H. repeat constructor. exact H. Qed.

Create HintDb report.
#[export] Hint Resolve report_quiet report_emit quiet_ret quiet_raise
  quiet_getitem quiet_load_local quiet_last_char quiet_fdiv : report.

Ltac report_body :=
  repeat first
    [ apply report_bind; [| intros]
    | match goal with
      | |- Forall _ (trace (if ?b then _ else _)) => destruct b
      | |- Forall _ (trace (match ?x with _ => _ end)) => destruct x
      end
    | solve [auto with report] ].

Section Shown.

Context {C : Collaborators}.

Lemma report_portfolio_performance (weights : weights_t)
  (stock_returns : frame) (freq risk_measure : string)
  (risk_free_rate alpha a_sim : Q) (beta b_sim : option Q) :
  Forall (fun e => is_report e = true)
    (trace (portfolio_performance weights stock_returns freq risk_measure
              risk_free_rate alpha a_sim beta b_sim)).
Proof. unfold portfolio_performance. report_body. Qed.

#[local] Hint Resolve report_portfolio_performance : report.

Lemma after_answer (cname title : string) (r : option weights_t * frame)
  (k : option weights_t * frame -> weights_t -> py (option weights_t)) :
  (forall r weights, Forall (fun e => is_report e = true) (trace (k r weights))) ->
  forall name ws rest,
    trace (bind (consult cname r)
             (fun r => match fst r with
                       | None => emit no_solution ;; ret None
                       | Some weights =>
                           emit (ConsolePrint [nl; title]) ;;
                           display_weights weights false ;;
                           k r weights
                       end))
    = Consult name (Some ws) :: rest ->
    exists title report,
      rest = (ConsolePrint [nl; title]
              :: trace (display_weights ws false) ++ report)%list /\
      Forall (fun e => is_report e = true) report.
Proof.
  intros Hk name ws rest. rewrite consult_run, bind_returned.
  destruct (fst r) as [weights |]; [| cbn [trace fst app]; discriminate].
  rewrite bind_emit, trace_bind, result_display_weights.
  cbn [trace fst app]. intros [= _ <- <-].
  exists title, (trace (k r weights)). split; [reflexivity | apply Hk].
Qed.

Ltac shown_body :=
  cbv zeta;
  repeat match goal with
         | |- context [bind ?m ?f] =>
             rewrite (bind_quiet m f) by auto with consult;
             destruct (result m);
             [| let H := fresh in intros ? ? ? H; discriminate H]
         end;
  apply after_answer; intros; report_body.

Local Abbreviation shown m :=
  (forall name ws rest,
     trace m = Consult name (Some ws) :: rest ->
     exists title report,
       rest = (ConsolePrint [nl; title]
               :: trace (display_weights ws false) ++ report)%list /\
       Forall (fun e => is_report e = true) report).

Lemma mean_risk_shown (w : window) (o : mean_risk_opts) :
  shown (display_mean_risk w o).
Proof. unfold display_mean_risk. shown_body. Qed.

Lemma max_div_shown (w : window) (o : diversification_opts) :
  shown (display_max_div w o).
Proof. unfold display_max_div. shown_body. Qed.

Lemma max_decorr_shown (w : window) (o : diversification_opts) :
  shown (display_max_decorr w o).
Proof. unfold display_max_decorr. shown_body. Qed.

Lemma risk_parity_shown (w : window) (o : risk_parity_opts) :
  shown (display_risk_parity w o).
Proof. unfold display_risk_parity. shown_body. Qed.

Lemma rel_risk_parity_shown (w : window) (o : rel_risk_parity_opts) :
  shown (display_rel_risk_parity w o).
Proof. unfold display_rel_risk_parity. shown_body. Qed.

Lemma hcp_shown (w : window) (o : hcp_opts) : shown (display_hcp w o).
Proof. unfold display_hcp. shown_body. Qed.

(** Once the optimizer has answered with a mapping, what follows on the
    console is the title, then the table of that mapping, then nothing but
    lines of the performance report and the closing blank line. *)
Theorem display_shows_title_table_report (w : window) (f : optimizer_display)
  (name : string) (ws : weights_t) (rest : list event) :
  trace (display w f) = Consult name (Some ws) :: rest ->
  exists title report,
    rest = (ConsolePrint [nl; title]
            :: trace (display_weights ws false) ++ report)%list /\
    Forall (fun e => is_report e = true) report.
Proof.
  revert name ws rest.
  destruct f; cbn [display];
    unfold display_max_sharpe, display_min_risk, display_max_util,
      display_max_ret, display_hrp, display_herc, display_nco;
    first [ apply mean_risk_shown | apply max_div_shown
          | apply max_decorr_shown | apply risk_parity_shown
          | apply rel_risk_parity_shown | apply hcp_shown ].
Qed.

End Shown.

Lemma display_shows_title_table_report_witness :
  let m := display (C := Sample.world) Sample.window_3y
             (MaxRet Sample.mean_risk_defaults) in
  exists ws rest,
    trace m = Consult "get_mean_risk_portfolio" (Some ws) :: rest /\
    exists title report,
      rest = (ConsolePrint [nl; title]
              :: trace (display_weights (C := Sample.world) ws false)
                 ++ report)%list /\
      Forall (fun e => is_report e = true) report.
Proof.
  intros m.
  assert (H : exists ws rest,
             trace m = Consult "get_mean_risk_portfolio" (Some ws) :: rest).
  { eexists. eexists. vm_compute. reflexivity. }
  destruct H as (ws & rest & H). exists ws, rest. split; [exact H |].
  exact (@display_shows_title_table_report Sample.world Sample.window_3y
           (MaxRet Sample.mean_risk_defaults) _ ws rest H).
Defined.

(** ** The wedges of the pie *)

Lemma Qsum_from (xs : list Q) (acc : Q) :
  Forall (fun x => (0 < x)%Q) xs ->
  (acc <= fold_left Qplus xs acc)%Q /\
  (xs <> [] -> (acc < fold_left Qplus xs acc)%Q).
Proof.
  intros H. revert acc. induction H as [| x xs Hx _ IH]; intros acc; cbn.
  - split; [apply Qle_refl | congruence].
  - destruct (IH (acc + x)%Q) as [Hle _].
    split; [| intros _]; lra.
Qed.

Lemma positive_slices_positive (items : list (string * Q)) :
  Forall (fun x => (0 < x)%Q) (snd (positive_slices items)).
Proof.
  induction items as [| [stock size] rest IH]; [constructor |].
  cbn [positive_slices]. destruct (positive_slices rest) as [stocks sizes].
  destruct (Qlt_bool 0 size) eqn:E; cbn [snd] in *; [| exact IH].
  constructor; [now apply Qlt_bool_iff | exact IH].
Qed.

Lemma append_nonempty (s t : string) :
  t <> EmptyString -> s ++ t <> EmptyString.
Proof. destruct s; cbn; [tauto | discriminate]. Qed.

Section Wedges.

Context {C : Collaborators}.

(** Every wedge of the chart has a strictly positive size, so that a chart
    with a wedge has a strictly positive total and its shares are well
    defined; there is one text and one entry in each legend per wedge; and
    the chart has no wedge exactly when no weight is strictly positive. *)
Theorem pie_chart_shares_are_defined (weights : weights_t)
  (title_opt : string) (chart : pie) :
  pie_chart_weights weights title_opt = Some chart ->
  Forall (fun x => (0 < x)%Q) (pie_sizes chart) /\
  (pie_sizes chart <> [] -> (0 < Qsum (pie_sizes chart))%Q) /\
  List.length (pie_autotexts chart) = List.length (pie_sizes chart) /\
  List.length (pie_legend_tickers chart) = List.length (pie_sizes chart) /\
  List.length (pie_legend_shares chart) = List.length (pie_sizes chart) /\
  (pie_sizes chart = [] <->
   forall kv, In kv weights -> (snd kv <= 0)%Q).
Proof.
  destruct weights as [| kv0 rest]; [discriminate |].
  unfold pie_chart_weights.
  pose proof (positive_slices_positive (kv0 :: rest)) as Hpos.
  destruct (positive_slices_combine (kv0 :: rest)) as [Hc Hl].
  destruct (positive_slices (kv0 :: rest)) as [stocks sizes].
  cbn [fst snd] in *. intros [= <-].
  cbn [pie_sizes pie_autotexts pie_legend_tickers pie_legend_shares].
  split; [exact Hpos |]. split.
  { intros Hne. apply (Qsum_from sizes 0 Hpos). exact Hne. }
  split; [destruct (isclose (float_sum sizes) 1 0.1); apply length_map |].
  split; [exact Hl |]. split; [apply length_map |].
  split.
  - intros ->. intros kv Hin.
    destruct (Qlt_le_dec 0 (snd kv)) as [Hlt | Hle]; [| exact Hle].
    assert (Hf : In kv (filter (fun kv => Qlt_bool 0 (snd kv)) (kv0 :: rest))).
    { apply filter_In. split; [exact Hin | now apply Qlt_bool_iff]. }
    rewrite <- Hc in Hf. destruct stocks; destruct Hf.
  - intros Hall. destruct sizes as [| x sizes]; [reflexivity |].
    destruct stocks as [| st stocks]; [discriminate |].
    assert (Hin : In (st, x) (filter (fun kv => Qlt_bool 0 (snd kv))
                               (kv0 :: rest))).
    { rewrite <- Hc. now left. }
    apply filter_In in Hin. destruct Hin as [Hin Hx].
    apply Qlt_bool_iff in Hx. specialize (Hall _ Hin). cbn [snd] in *. lra.
Qed.


(** [my_autopct] leaves a wedge without text exactly when its share is at
    most 4 percent. *)
Theorem my_autopct_empty_iff (x : Q) :
  my_autopct x = EmptyString <-> (x <= 4)%Q.
Proof.
  unfold my_autopct. destruct (Qlt_bool 4 x) eqn:E.
  - apply Qlt_bool_iff in E. split.
    + intros H. exfalso. revert H. apply append_nonempty. discriminate.
    + intros H. lra.
  - split; [intros _ | reflexivity].
    destruct (Qlt_le_dec 4 x) as [Hlt | Hle]; [| exact Hle].
    apply Qlt_bool_iff in Hlt. congruence.
Qed.

End Wedges.

Lemma pie_chart_shares_are_defined_witness :
  let weights := [("A", 0.5); ("B", 0.03); ("C", -0.1); ("D", 0.47)]%Q in
  exists chart : pie,
    pie_chart_weights (C := Sample.world) weights "Weights" = Some chart /\
    pie_sizes chart = [0.5; 0.03; 0.47]%Q /\
    (0 < Qsum (pie_sizes chart))%Q.
Proof.
  intros weights. eexists. split; [reflexivity |]. split; [reflexivity |].
  refine (proj1 (proj2 (@pie_chart_shares_are_defined Sample.world weights
                          "Weights" _ eq_refl)) _).
  discriminate.
Defined.


(** ** The width of the cells *)

Lemma length_substring_0 (n : nat) (s : string) :
  String.length (substring 0 n s) = Nat.min n (String.length s).
Proof.
  revert s. induction n as [| n IH]; intros s.
  - now destruct s.
  - destruct s as [| a s]; [reflexivity |]. cbn. now rewrite IH.
Qed.

Lemma length_clip (s : string) :
  (String.length (clip s) <= 5)%nat /\
  (5 <= String.length s -> String.length (clip s) = 5)%nat.
Proof.
  unfold clip, Str.slice.
  destruct (Str.find "." s) as [[| [| i]] |]; cbn [append String.length];
    rewrite length_substring_0; lia.
Qed.

Section Cells.

Context {C : Collaborators}.

(** Whatever the text of a float looks like, a cell of the weights table is
    at most seven characters long, suffix included: the text is cut to five
    characters, or to four after a leading blank when the point comes
    second. *)
Theorem display_weights_cells_are_short (weights : weights_t)
  (rows : list (string * cell)) (headers : list string) (title ticker text : string) :
  In (RichTable rows headers title) (trace (display_weights weights false)) ->
  In (ticker, CStr text) rows ->
  (String.length text <= 7)%nat /\
  exists value : Q, In (ticker, value) weights.
Proof.
  unfold display_weights. destruct weights as [| kv rest]; [intros [] |].
  cbn [negb]. remember (kv :: rest) as ws eqn:Ews.
  destruct (isclose (float_sum (values ws)) 1 0.1);
    cbn [emit trace fst In]; intros [[= <- _ _] | []] Hrow;
    apply in_map_iff in Hrow; destruct Hrow as ([t v] & [= <- <-] & Hin);
    (split; [| now exists v]);
    rewrite length_app; cbn [fst snd String.length];
    pose proof (proj1 (length_clip (str_float (v * 100)))) as H1;
    pose proof (proj1 (length_clip (str_float v))) as H2; lia.
Qed.

End Cells.

Lemma display_weights_cells_are_short_witness :
  let weights := [("AAPL", 0.123456); ("MSFT", 0.876544)]%Q in
  In (RichTable [("AAPL", CStr "12.34 %"); ("MSFT", CStr "87.65 %")]
        ["Value"] "Weights")
    (trace (display_weights (C := Sample.world) weights false)) /\
  (String.length "12.34 %" <= 7)%nat.
Proof.
  intros weights.
  assert (H : In (RichTable [("AAPL", CStr "12.34 %"); ("MSFT", CStr "87.65 %")]
                    ["Value"] "Weights")
                (trace (display_weights (C := Sample.world) weights false))).
  { vm_compute. left. reflexivity. }
  split; [exact H |].
  refine (proj1 (@display_weights_cells_are_short Sample.world weights _ _ _
                   "AAPL" "12.34 %" H _)).
  left. reflexivity.
Defined.

(** ** The significance level of the risk-parity report *)

Section RiskParityAlpha.

Context {C : Collaborators}.

(** [display_risk_parity] hands [alpha] to the optimizer and to nothing
    else.  Once the period is formatted and for a known risk measure, the
    answer it gets is the answer to the request that carries the translated
    code and [alpha]; and a run at another level is the same run as soon as
    the optimizer gives the same answer to the request sent at that level. *)
Theorem risk_parity_alpha_reaches_the_optimizer_only (w : window)
  (o : risk_parity_opts) (a : Q) (p rm : string) :
  result (d_period (period w) (start w) (end_ w)) = Returned p ->
  dict_get risk_choices (rp_risk_measure o) = Some rm ->
  let sent alpha :=
    get_risk_parity_portfolio w (rp_with_code (rp_with_alpha o alpha) rm) in
  (exists rest : list event,
     trace (display_risk_parity w (rp_with_alpha o a))
     = Consult "get_risk_parity_portfolio" (fst (sent a)) :: rest) /\
  (forall a' : Q,
     sent a' = sent a ->
     display_risk_parity w (rp_with_alpha o a')
     = display_risk_parity w (rp_with_alpha o a)).
Proof.
  intros Hp Hrm sent.
  destruct (risk_names_Some _ _ Hrm) as [name Hname].
  assert (Hrun :
            forall alpha : Q,
              display_risk_parity w (rp_with_alpha o alpha)
              = bind (consult "get_risk_parity_portfolio" (sent alpha))
                  (fun r =>
                     match fst r with
                     | None => emit no_solution ;; ret None
                     | Some weights =>
                         emit (ConsolePrint
                                 [nl;
                                  ((p ++ " Risk parity portfolio based on risk budgeting approach" ++ nl)
                                   ++ ("using " ++ name ++ " as risk measure" ++ nl))%string]) ;;
                         display_weights weights false ;;
                         rm <- getitem risk_choices (rp_risk_measure o) ;;
                         portfolio_performance weights (snd r) (freq w) rm
                           (rp_risk_free_rate o) 0.05 100 None None ;;
                         emit (ConsolePrint [""%string]) ;;
                         ret (Some weights)
                     end)).
  { intros alpha. unfold display_risk_parity.
    change (rp_risk_measure (rp_with_alpha o alpha)) with (rp_risk_measure o).
    change (rp_risk_free_rate (rp_with_alpha o alpha))
      with (rp_risk_free_rate o).
    rewrite bind_quiet by auto with consult. rewrite Hp.
    rewrite (getitem_Some _ _ _ Hname), bind_ret.
    rewrite (getitem_Some _ _ _ Hrm), bind_ret. reflexivity. }
  split.
  - rewrite Hrun, consult_run, bind_returned. cbn [trace fst app].
    eexists. reflexivity.
  - intros a' Hsame. rewrite !Hrun, Hsame. reflexivity.
Qed.

End RiskParityAlpha.

(** In the second sample world the risk-parity optimizer has no solution for
    "evar" at a level of 0.01, and it has one at the level of 0.05: the
    level does reach it.  At 0.015 the answer is the same as at 0.01, and so
    is the run. *)
Lemma risk_parity_alpha_reaches_the_optimizer_only_witness :
  let C := Sample.tail_world in
  let w := Sample.window_3y in
  let o := mkRiskParity "evar" None 0 0.05 (-1) "hist" "hist" 0.94 1 in
  result (d_period (C := C) (period w) (start w) (end_ w))
  = Returned "[3 Years]" /\
  dict_get risk_choices (rp_risk_measure o) = Some "EVaR" /\
  (exists rest : list event,
     trace (display_risk_parity (C := C) w (rp_with_alpha o 0.01))
     = Consult "get_risk_parity_portfolio" None :: rest) /\
  consulted (display_risk_parity (C := C) w (rp_with_alpha o 0.05)) = true /\
  result (display_risk_parity (C := C) w (rp_with_alpha o 0.05))
  <> Returned None /\
  display_risk_parity (C := C) w (rp_with_alpha o 0.015)
  = display_risk_parity (C := C) w (rp_with_alpha o 0.01).
Proof.
  intros C w o.
  assert (Hp : result (d_period (C := C) (period w) (start w) (end_ w))
               = Returned "[3 Years]") by reflexivity.
  assert (Hrm : dict_get risk_choices (rp_risk_measure o) = Some "EVaR")
    by reflexivity.
  split; [exact Hp |]. split; [exact Hrm |].
  destruct (@risk_parity_alpha_reaches_the_optimizer_only C w o 0.01
              "[3 Years]" "EVaR" Hp Hrm) as [Hsent Hsame].
  split; [exact Hsent |]. split; [reflexivity |].
  split; [vm_compute; discriminate |].
  apply Hsame. reflexivity.
Defined.

(** ** The efficient frontier *)

Lemma quiet_for_each {A B : Type} (f : A -> py B) (xs : list A) :
  (forall x, quiet (f x)) -> quiet (for_each f xs).
Proof.
  intros Hf. induction xs as [| x xs IH]; cbn [for_each]; [reflexivity |].
  apply quiet_bind; [apply Hf | intros y].
  apply quiet_bind; [exact IH | intros ys; reflexivity].
Qed.

Lemma quiet_first_item {A : Type} (xs : list A) : quiet (first_item xs).
Proof. now destruct xs. Qed.

Lemma quiet_last_item {A : Type} (xs : list A) : quiet (last_item xs).
Proof. unfold last_item. now destruct (rev xs). Qed.

Lemma quiet_min_item (xs : list Q) : quiet (min_item xs).
Proof. now destruct xs. Qed.

#[export] Hint Resolve quiet_first_item quiet_last_item quiet_min_item : quiet.

(** Walks through a body that prints nothing. *)
Ltac quiet_body :=
  repeat first
    [ apply quiet_bind; [| intros]
    | apply quiet_for_each; intros
    | match goal with
      | |- quiet (if ?b then _ else _) => destruct b
      | |- quiet (match ?x with _ => _ end) => destruct x
      end
    | solve [auto with quiet] ].

(** A loop whose body only returns. *)
Lemma for_each_ret {A B V : Type} (v : V) (g : V -> A -> B) (xs : list A) :
  for_each (fun x => y <- ret v ;; ret (g y x)) xs = ret (List.map (g v) xs).
Proof.
  induction xs as [| x xs IH]; cbn [for_each List.map]; [reflexivity |].
  rewrite IH. now rewrite !bind_ret.
Qed.

Lemma last_item_nonempty {A : Type} (xs : list A) :
  xs <> [] -> exists x, last_item xs = ret x.
Proof.
  intros Hne. unfold last_item. destruct (rev xs) as [| x l] eqn:E.
  - apply (f_equal (@rev A)) in E. rewrite rev_involutive in E.
    contradiction.
  - now exists x.
Qed.

Section Frontier.

Context {C : Collaborators} {F : FrontierTools}.

(** [display_ef] sends nothing to the console: whatever the request, its
    only trace is the one question put to [riskfolio] for the tangency
    portfolio, if the run gets that far. *)
Theorem display_ef_prints_nothing (w : window) (o : ef_opts)
  (external_axes : option (list string)) :
  filter is_output (trace (display_ef w o external_axes)) = [] /\
  (trace (display_ef w o external_axes) = [] \/
   exists answer : option weights_t,
     trace (display_ef w o external_axes)
     = [Consult "Portfolio.optimization" answer]).
Proof.
  assert (H : trace (display_ef w o external_axes) = [] \/
              exists answer : option weights_t,
                trace (display_ef w o external_axes)
                = [Consult "Portfolio.optimization" answer]).
  { unfold display_ef.
    do 3 (match goal with
          | |- context [bind ?m ?f] =>
              rewrite (bind_quiet m f) by auto with quiet;
              destruct (result m); [| now left]
          end).
    right. eexists. rewrite bind_emit. cbn [trace fst]. f_equal.
    match goal with |- trace ?m = [] => change (quiet m) end.
    quiet_body. }
  split; [| exact H].
  destruct H as [-> | [answer ->]]; reflexivity.
Qed.

(** When [riskfolio] has no tangency portfolio, [display_ef] goes on
    without a word.  For a known frequency and risk measure, a frontier with
    at least one portfolio and axes to draw on: without the capital
    allocation line the frontier is drawn with no tangency point, and with
    it the call fails on the missing weights. *)
Theorem display_ef_without_tangency_portfolio (w : window) (o : ef_opts)
  (external_axes : option (list string)) (tf : Z) (rm : string) :
  dict_get time_factor (Str.upper (freq w)) = Some tf ->
  dict_get risk_choices (ef_risk_measure o) = Some rm ->
  let rf := (ef_risk_free_rate o / inject_Z tf)%Q in
  let port :=
    if Qlt_bool 0 (ef_value_short o) then
      mkPortfolio (returns_provider w) (ef_alpha o) (ef_value o) (Some true)
        (Some (ef_value_short o)) (ef_value o - ef_value_short o)
    else
      mkPortfolio (returns_provider w) (ef_alpha o) (ef_value o) None None
        (ef_value o) in
  optimization port rm rf = None ->
  efficient_frontier port rm 20 rf <> [] ->
  external_axes <> Some [] ->
  trace (display_ef w o external_axes)
  = [Consult "Portfolio.optimization" None] /\
  (ef_tangency o = false ->
   exists chart : frontier_chart,
     result (display_ef w o external_axes) = Returned chart /\
     fc_w chart = None /\ fc_line chart = None) /\
  (ef_tangency o = true ->
   exists e : exn, result (display_ef w o external_axes) = Raised e).
Proof.
  intros Htf Hrm rf port Hnone Hfrontier Haxes.
  assert (Hrun :
            (ef_tangency o = false ->
             exists chart : frontier_chart,
               display_ef w o external_axes
               = ([Consult "Portfolio.optimization" None], Returned chart) /\
               fc_w chart = None /\ fc_line chart = None) /\
            (ef_tangency o = true ->
             exists e : exn,
               display_ef w o external_axes
               = ([Consult "Portfolio.optimization" None], Raised e))).
  { unfold display_ef.
    rewrite !(getitem_Some _ _ _ Htf), !bind_ret.
    rewrite (fdiv_nonzero _ _ (time_factor_nonzero _ _ Htf)), bind_ret.
    fold rf. fold port.
    rewrite !(getitem_Some _ _ _ Hrm), !bind_ret.
    rewrite Hnone, bind_emit.
    rewrite (for_each_ret rm
               (fun rm col =>
                  Sharpe_Risk col (cov (returns_provider w))
                    (returns_provider w) rm rf (ef_alpha o) 100 None None)),
      bind_ret.
    destruct (efficient_frontier port rm 20 rf) as [| col cols] eqn:Hf;
      [contradiction |].
    set (scored := List.map _ (col :: cols)).
    assert (Hscored :
              forall g : Q -> Q,
                exists x, first_item (List.map g scored) = ret x /\
                exists y, last_item (List.map g scored) = ret y).
    { intros g. subst scored. cbn [List.map first_item].
      eexists. split; [reflexivity |].
      apply last_item_nonempty. discriminate. }
    assert (Hax :
              exists ax : option string,
                match external_axes with
                | None => ret None
                | Some axes => a <- first_item axes ;; ret (Some a)
                end = ret ax).
    { destruct external_axes as [[| a axes] |];
        [contradiction | | ]; eexists; reflexivity. }
    destruct Hax as [ax Hax].
    rewrite !bind_ret.
    destruct (negb (str_in rm ef_not_annualized)).
    - rewrite !bind_ret.
      destruct (Hscored (fun x => (x * pow_half (inject_Z tf))%Q))
        as (x & Hx & y & Hy).
      rewrite Hx, bind_ret, Hy, bind_ret, Hax, bind_ret.
      split; intros Ht; rewrite Ht.
      + eexists. split; [reflexivity | split; reflexivity].
      + eexists. reflexivity.
    - rewrite !bind_ret.
      destruct (Hscored (fun x => x)) as (x & Hx & y & Hy).
      rewrite map_id in Hx, Hy.
      rewrite Hx, bind_ret, Hy, bind_ret, Hax, bind_ret.
      split; intros Ht; rewrite Ht.
      + eexists. split; [reflexivity | split; reflexivity].
      + eexists. reflexivity. }
  destruct Hrun as [Hfalse Htrue].
  split.
  - destruct (ef_tangency o).
    + destruct (Htrue eq_refl) as [e ->]. reflexivity.
    + destruct (Hfalse eq_refl) as (chart & -> & _). reflexivity.
  - split.
    + intros Ht. destruct (Hfalse Ht) as (chart & -> & Hw & Hl).
      now exists chart.
    + intros Ht. destruct (Htrue Ht) as [e ->]. now exists e.
Qed.

End Frontier.

Lemma display_ef_without_tangency_portfolio_witness :
  let w := Sample.window_3y in
  let o := mkEf "mv" 0 0.05 1 2 100 123 true in
  dict_get time_factor (Str.upper (freq w)) = Some 252%Z /\
  dict_get risk_choices (ef_risk_measure o) = Some "MV" /\
  trace (display_ef (F := Sample.frontier_tools) w o None)
  = [Consult "Portfolio.optimization" None] /\
  exists e : exn,
    result (display_ef (F := Sample.frontier_tools) w o None) = Raised e.
Proof.
  intros w o.
  split; [reflexivity |]. split; [reflexivity |].
  destruct (@display_ef_without_tangency_portfolio Sample.world
              Sample.frontier_tools w o None 252%Z "MV" eq_refl eq_refl)
    as (Htrace & _ & Hfails).
  - reflexivity.
  - discriminate.
  - discriminate.
  - split; [exact Htrace |]. apply Hfails. reflexivity.
Defined.
